(** * BorrowBuddy exchange: the page handlers of the resource marketplace

    A shallow embedding of the four page components of the application
    (resource listing, resource creation, booking form, dashboard) and of
    the booking-status constraint of the database migration, with the
    properties of their handlers.

    Conventions of the embedding.
    - A JavaScript [number] is [NaN], an infinity or a rational, the
      value of a finite binary64.  Differences, products and quotients
      are rounded to binary64 (to nearest, ties to even, overflowing to
      an infinity).  The sign of zero is outside the model.
    - A JavaScript object used as a dictionary (a form state, the payload
      of an insert or update) is a [gmap string value]; an object spread
      followed by properties is a sequence of inserts, the later key
      winning.
    - A component is a state record and handlers.  A handler is a
      [prog]: state updates, notifications, navigations and awaited
      backend requests in program order.  The backend is an external
      service: [run] takes its answers as a function of the request.
    - Built-ins of the JavaScript runtime the handlers call
      ([String.prototype.toLowerCase], [parseFloat], the [Date]
      constructor with [getTime]) are the fields of the class [Runtime];
      [reference_runtime] is an executable instance on the ASCII range,
      decimal literals and date-time strings read in UTC. *)

From Stdlib Require Import ZArith QArith Qround String Ascii List Bool Lia.
From Stdlib Require Import Sorting.Sorted.
From stdpp Require Import base gmap strings list.

Import ListNotations.
Local Open Scope string_scope.
Local Open Scope list_scope.
Local Open Scope Z_scope.

(** ** JavaScript values *)

Module Js.

(** [number]: NaN, +Infinity ([Inf false]), -Infinity ([Inf true]) or a
    finite value. *)
Inductive number : Type :=
| NaN
| Inf (negative : bool)
| Num (q : Q).

Definition Qneg (q : Q) : bool := (Qnum q <? 0)%Z.
Definition Qzero (q : Q) : bool := (Qnum q =? 0)%Z.

(** *** Rounding to binary64 *)

(** The integer nearest to [n / d] for [d > 0], a tie going to the even
    one. *)
Definition nearest_even (n d : Z) : Z :=
  let f := n / d in
  match 2 * (n mod d) ?= d with
  | Lt => f
  | Gt => f + 1
  | Eq => if Z.even f then f else f + 1
  end.

(** The exponent [E] with [2^E <= n / d < 2^(E + 1)]. *)
Definition floor_log2 (n d : positive) : Z :=
  let e0 := Z.log2 (Zpos n) - Z.log2 (Zpos d) in
  if 0 <=? e0
  then (if Zpos d * 2 ^ e0 <=? Zpos n then e0 else e0 - 1)
  else (if Zpos d <=? Zpos n * 2 ^ (- e0) then e0 else e0 - 1).

(** [m * 2^u] as a fraction in lowest terms. *)
Definition scale2 (m u : Z) : Q :=
  Qred (if 0 <=? u then inject_Z (m * 2 ^ u) else Qmake m (Z.to_pos (2 ^ (- u)))).

(** The binary64 nearest to the positive rational [n / d]: 53
    significant bits, the unit in the last place not below [2^-1074]
    (subnormal numbers), +Infinity from [2^1024] on. *)
Definition round_pos (n d : positive) : number :=
  let E := floor_log2 n d in
  if 1024 <=? E then Inf false else
  let u := Z.max E (-1022) - 52 in
  let m := if 0 <=? u then nearest_even (Zpos n) (Zpos d * 2 ^ u)
           else nearest_even (Zpos n * 2 ^ (- u)) (Zpos d) in
  if (0 <=? u) && (2 ^ 1024 <=? m * 2 ^ u) then Inf false
  else Num (scale2 m u).

Definition neg (a : number) : number :=
  match a with
  | NaN => NaN
  | Inf s => Inf (negb s)
  | Num x => Num (- x)
  end.

Definition round64 (q : Q) : number :=
  match Qnum q with
  | Z0 => Num 0
  | Zpos n => round_pos n (Qden q)
  | Zneg n => neg (round_pos n (Qden q))
  end.

(** [a - b] *)
Definition sub (a b : number) : number :=
  match a, b with
  | NaN, _ | _, NaN => NaN
  | Inf s, Inf t => if Bool.eqb s t then NaN else Inf s
  | Inf s, Num _ => Inf s
  | Num _, Inf t => Inf (negb t)
  | Num x, Num y => round64 (x - y)
  end.

(** [a * b] *)
Definition mul (a b : number) : number :=
  match a, b with
  | NaN, _ | _, NaN => NaN
  | Inf s, Inf t => Inf (xorb s t)
  | Inf s, Num y => if Qzero y then NaN else Inf (xorb s (Qneg y))
  | Num x, Inf t => if Qzero x then NaN else Inf (xorb (Qneg x) t)
  | Num x, Num y => round64 (x * y)
  end.

(** [a / b]; a zero divisor is taken as +0. *)
Definition div (a b : number) : number :=
  match a, b with
  | NaN, _ | _, NaN => NaN
  | Inf _, Inf _ => NaN
  | Inf s, Num y => Inf (xorb s (Qneg y))
  | Num _, Inf _ => Num 0
  | Num x, Num y =>
      if Qzero y then (if Qzero x then NaN else Inf (Qneg x))
      else round64 (x / y)
  end.

(** [Math.ceil] *)
Definition Math_ceil (a : number) : number :=
  match a with
  | Num x => Num (inject_Z (Qceiling x))
  | _ => a
  end.

(** [Math.max] of two arguments *)
Definition Math_max (a b : number) : number :=
  match a, b with
  | NaN, _ | _, NaN => NaN
  | Inf false, _ | _, Inf false => Inf false
  | Inf true, c | c, Inf true => c
  | Num x, Num y => if Qle_bool y x then Num x else Num y
  end.

(** JSON-like values: the members of request payloads. *)
Inductive value : Type :=
| VNull
| VBool (b : bool)
| VNumber (n : number)
| VString (s : string)
| VTime (t : Z).

(** Truthiness of a string: only the empty string is falsy. *)
Definition truthy (s : string) : bool := negb (String.eqb s "").

(** [s.includes(t)]: [t] occurs in [s] as a contiguous run. *)
Fixpoint includes (s t : string) : bool :=
  String.prefix t s ||
  match s with
  | EmptyString => false
  | String _ s' => includes s' t
  end.

(** The built-ins taken from the runtime. *)
Class Runtime : Type := {
  toLowerCase : string -> string;
  parseFloat : string -> number;
  (** [new Date(s).getTime()]: milliseconds since the epoch, [NaN] for
      an invalid date. *)
  Date_getTime : string -> number
}.

End Js.

(** ** An executable runtime

    [toLowerCase] on the letters A-Z, [parseFloat] on the
    [StrDecimalLiteral] prefix of its argument (the binary64 nearest to
    the decimal), and [Date_getTime] on
    the values a date-time form control holds
    ([YYYY-MM-DDTHH:mm], optionally [:ss] and [.sss]), read in UTC. *)

Module Reference.
Import Js.

Definition lower_ascii (c : ascii) : ascii :=
  let n := nat_of_ascii c in
  if (65 <=? n)%nat && (n <=? 90)%nat then ascii_of_nat (n + 32) else c.

Fixpoint lower (s : string) : string :=
  match s with
  | EmptyString => EmptyString
  | String c s' => String (lower_ascii c) (lower s')
  end.

Definition digit (c : ascii) : option Z :=
  let n := nat_of_ascii c in
  if (48 <=? n)%nat && (n <=? 57)%nat then Some (Z.of_nat n - 48) else None.

(** The longest run of decimal digits at the head of [s]: its value on
    top of [acc], its length on top of [cnt], and the rest. *)
Fixpoint digits (s : string) (acc : Z) (cnt : nat) : Z * nat * string :=
  match s with
  | EmptyString => (acc, cnt, s)
  | String c s' =>
      match digit c with
      | Some d => digits s' (10 * acc + d) (S cnt)
      | None => (acc, cnt, s)
      end
  end.

Definition is_space (c : ascii) : bool :=
  let n := nat_of_ascii c in
  (n =? 32)%nat || ((9 <=? n)%nat && (n <=? 13)%nat).

Fixpoint trim_start (s : string) : string :=
  match s with
  | String c s' => if is_space c then trim_start s' else s
  | EmptyString => s
  end.

Definition sign (s : string) : bool * string :=
  match s with
  | String "-" s' => (true, s')
  | String "+" s' => (false, s')
  | _ => (false, s)
  end.

(** [m * 10^e] as a rational *)
Definition scale10 (m e : Z) : Q :=
  if (0 <=? e)%Z then inject_Z (m * 10 ^ e)
  else Qmake m (Z.to_pos (10 ^ (- e))).

Definition exponent (s : string) : Z :=
  match s with
  | String c s' =>
      if Ascii.eqb c "e" || Ascii.eqb c "E" then
        let '(neg, s'') := sign s' in
        let '(e, n, _) := digits s'' 0 0%nat in
        if (n =? 0)%nat then 0 else if neg then - e else e
      else 0
  | EmptyString => 0
  end.

Definition parse_float (s : string) : number :=
  let '(neg, s1) := sign (trim_start s) in
  if String.prefix "Infinity" s1 then Inf neg else
  let '(ip, ni, s2) := digits s1 0 0%nat in
  let '(m, n, s3) :=
    match s2 with
    | String "." s' => digits s' ip ni
    | _ => (ip, ni, s2)
    end in
  if (n =? 0)%nat then NaN else
  let nf := Z.of_nat (n - ni) in
  round64 (scale10 (if neg then - m else m) (exponent s3 - nf)).

(** Exactly [n] digits at the head of [s]. *)
Fixpoint fixed_digits (n : nat) (s : string) (acc : Z) : option (Z * string) :=
  match n with
  | O => Some (acc, s)
  | S n' =>
      match s with
      | String c s' =>
          match digit c with
          | Some d => fixed_digits n' s' (10 * acc + d)
          | None => None
          end
      | EmptyString => None
      end
  end.

Definition expect (c : ascii) (s : string) : option string :=
  match s with
  | String d s' => if Ascii.eqb c d then Some s' else None
  | EmptyString => None
  end.

Definition is_leap (y : Z) : bool :=
  ((y mod 4 =? 0) && negb (y mod 100 =? 0)) || (y mod 400 =? 0).

Definition days_in_month (y m : Z) : Z :=
  if m =? 2 then (if is_leap y then 29 else 28)
  else if (m =? 4) || (m =? 6) || (m =? 9) || (m =? 11) then 30
  else 31.

(** Days from 1970-01-01 to the civil date [y-m-d]. *)
Definition days_from_civil (y m d : Z) : Z :=
  let y' := if m <=? 2 then y - 1 else y in
  let era := y' / 400 in
  let yoe := y' - era * 400 in
  let doy := (153 * (if 2 <? m then m - 3 else m + 9) + 2) / 5 + d - 1 in
  let doe := yoe * 365 + yoe / 4 - yoe / 100 + doy in
  era * 146097 + doe - 719468.

(** Optional [:ss] and [.sss] after the minutes: milliseconds, and
    whether the whole string was consumed. *)
Definition seconds_part (s : string) : option Z :=
  match s with
  | EmptyString => Some 0
  | _ =>
      s1 ← expect ":" s;
      '(ss, s2) ← fixed_digits 2 s1 0;
      if negb (ss <? 60) then None else
      match s2 with
      | EmptyString => Some (ss * 1000)
      | _ =>
          s3 ← expect "." s2;
          '(ms, s4) ← fixed_digits 3 s3 0;
          match s4 with
          | EmptyString => Some (ss * 1000 + ms)
          | _ => None
          end
      end
  end.

Definition parse_date_time (s : string) : option Z :=
  '(y, s1) ← fixed_digits 4 s 0;
  s2 ← expect "-" s1;
  '(m, s3) ← fixed_digits 2 s2 0;
  s4 ← expect "-" s3;
  '(d, s5) ← fixed_digits 2 s4 0;
  s6 ← expect "T" s5;
  '(hh, s7) ← fixed_digits 2 s6 0;
  s8 ← expect ":" s7;
  '(mm, s9) ← fixed_digits 2 s8 0;
  ms ← seconds_part s9;
  if (1 <=? m) && (m <=? 12) && (1 <=? d) && (d <=? days_in_month y m)
     && (hh <? 24) && (mm <? 60)
  then Some (days_from_civil y m d * 86400000 + hh * 3600000 + mm * 60000 + ms)
  else None.

Definition date_getTime (s : string) : number :=
  match parse_date_time s with
  | Some t => Num (inject_Z t)
  | None => NaN
  end.

#[export] Instance reference_runtime : Runtime := {|
  toLowerCase := lower;
  parseFloat := parse_float;
  Date_getTime := date_getTime
|}.

End Reference.

(** ** Handlers as programs over the backend client *)

Module Client.
Import Js.

(** A request built with the query client: the table, the [eq] filters
    in call order, and for a select the [order] clause (column and
    [ascending] flag). *)
Inductive request : Type :=
| Select (table : string) (filters : list (string * value))
    (order : option (string * bool))
| Insert (table : string) (row : gmap string value)
| Update (table : string) (patch : gmap string value)
    (filters : list (string * value))
| Delete (table : string) (filters : list (string * value)).

(** The [{ data, error }] object an awaited request resolves to. *)
Record response (D : Type) : Type := {
  data : option D;
  error : option string
}.
Arguments data {D} _.
Arguments error {D} _.

Inductive event : Type :=
| Toast (title description : string) (destructive : bool)
| Navigate (to : string)
| ConsoleError (label : string).

(** A handler body: state updates (applied to the state current when
    they run, as React's updater functions are), events shown to the
    user, awaited requests. *)
Inductive prog (St D : Type) : Type :=
| Done
| SetState (f : St -> St) (k : prog St D)
| Emit (e : event) (k : prog St D)
| Await (q : request) (k : response D -> prog St D).
Arguments Done {St D}.
Arguments SetState {St D} f k.
Arguments Emit {St D} e k.
Arguments Await {St D} q k.

Record outcome (St : Type) : Type := {
  final : St;
  events : list event;
  requests : list request
}.
Arguments final {St} _.
Arguments events {St} _.
Arguments requests {St} _.

Fixpoint run {St D : Type} (backend : request -> response D)
    (p : prog St D) (st : St) : outcome St :=
  match p with
  | Done => {| final := st; events := []; requests := [] |}
  | SetState f k => run backend k (f st)
  | Emit e k =>
      let o := run backend k st in
      {| final := final o; events := e :: events o; requests := requests o |}
  | Await q k =>
      let o := run backend (k (backend q)) st in
      {| final := final o; events := events o; requests := q :: requests o |}
  end.

(** An object literal [{ ...base, k1: v1, ..., kn: vn }]: properties
    are defined left to right, a later one replacing an earlier one of
    the same key. *)
Definition extend {V : Type} (base : gmap string V)
    (props : list (string * V)) : gmap string V :=
  fold_left (fun o kv => <[fst kv := snd kv]> o) props base.

Definition object {V : Type} (props : list (string * V)) : gmap string V :=
  extend ∅ props.

End Client.

(** Handlers whose requests carry the type of the data they resolve
    to: a single row, a page of rows, rows of different tables. *)
Module Typed.
Import Client.

Section Prog.
Context {Q : Type -> Type} {St : Type}.

Inductive prog : Type :=
| Done
| SetState (f : St -> St) (k : prog)
| Emit (e : event) (k : prog)
| Await {D : Type} (q : Q D) (k : response D -> prog).

(** A request with its data type, as kept in the log of a run. *)
Definition packed : Type := { D : Type & Q D }.

Definition pack {D : Type} (q : Q D) : packed := existT D q.

Record outcome : Type := {
  final : St;
  events : list event;
  requests : list packed
}.

Fixpoint run (backend : forall D, Q D -> response D) (p : prog) (st : St)
    : outcome :=
  match p with
  | Done => {| final := st; events := []; requests := [] |}
  | SetState f k => run backend k (f st)
  | Emit e k =>
      let o := run backend k st in
      {| final := final o; events := e :: events o; requests := requests o |}
  | Await q k =>
      let o := run backend (k (backend _ q)) st in
      {| final := final o; events := events o; requests := pack q :: requests o |}
  end.

End Prog.

Arguments prog : clear implicits.
Arguments outcome : clear implicits.
Arguments packed : clear implicits.

End Typed.

(** The identity supplied by the authentication context. *)
Module Auth.
Record User : Type := { id : string }.
End Auth.

(** ** The database migration *)

Module Schema.

(** [CHECK (status IN ('pending', 'confirmed', 'cancelled', 'completed'))]
    on [bookings.status]. *)
Definition bookings_status_values : list string :=
  ["pending"; "confirmed"; "cancelled"; "completed"].

Definition bookings_status_check (status : string) : bool :=
  existsb (String.eqb status) bookings_status_values.

End Schema.

(** ** Resource listing ([src/pages/Resources.tsx]) *)

Module Resources.
Import Js Client.

(** A row of the [resources] table as [select("*")] delivers it: the
    members of the component's [Resource] interface and the remaining
    columns.  [description], [image_url] and [is_available] are
    nullable columns; [created_at] is an instant. *)
Record Resource : Type := {
  id : string;
  title : string;
  description : option string;
  category : string;
  price : number;
  location : string;
  image_url : option string;
  availability_start : string;
  availability_end : string;
  is_available : option bool;
  owner_id : string;
  created_at : Z
}.

Record State : Type := {
  resources : list Resource;
  loading : bool;
  searchTerm : string;
  selectedCategory : string
}.

Definition initial : State :=
  {| resources := []; loading := true; searchTerm := ""; selectedCategory := "" |}.

Definition setResources (v : list Resource) (st : State) : State :=
  {| resources := v; loading := loading st;
     searchTerm := searchTerm st; selectedCategory := selectedCategory st |}.

Definition setLoading (v : bool) (st : State) : State :=
  {| resources := resources st; loading := v;
     searchTerm := searchTerm st; selectedCategory := selectedCategory st |}.

Definition setSearchTerm (v : string) (st : State) : State :=
  {| resources := resources st; loading := loading st;
     searchTerm := v; selectedCategory := selectedCategory st |}.

Definition setSelectedCategory (v : string) (st : State) : State :=
  {| resources := resources st; loading := loading st;
     searchTerm := searchTerm st; selectedCategory := v |}.

(** [from("resources").select("*").eq("is_available", true)
     .order("created_at", { ascending: false })] *)
Definition fetchQuery : request :=
  Select "resources" [("is_available", VBool true)] (Some ("created_at", false)).

Definition fetchResources : prog State (list Resource) :=
  Await fetchQuery (fun res =>
    match error res with
    | Some _ =>
        Emit (ConsoleError "Error fetching resources:")
          (Emit (Toast "Error" "Failed to load resources" true)
            (SetState (setLoading false) Done))
    | None =>
        SetState (setResources (default [] (data res)))
          (SetState (setLoading false) Done)
    end).

Section Filter.
Context `{Runtime}.

Definition matchesSearch (searchTerm : string) (resource : Resource) : bool :=
  includes (toLowerCase (title resource)) (toLowerCase searchTerm)
  || match description resource with
     | Some d => includes (toLowerCase d) (toLowerCase searchTerm)
     | None => false
     end
  || includes (toLowerCase (location resource)) (toLowerCase searchTerm).

Definition matchesCategory (selectedCategory : string) (resource : Resource) : bool :=
  negb (truthy selectedCategory)
  || String.eqb (category resource) selectedCategory.

Definition filteredResources (st : State) : list Resource :=
  List.filter
    (fun resource =>
       matchesSearch (searchTerm st) resource
       && matchesCategory (selectedCategory st) resource)
    (resources st).

End Filter.

(** *** Evaluation of a select on the table

    What the service answers to a select: the rows passing every [eq]
    filter (a null column passes none), sorted by the [order] column.
    Nulls sort as the largest value.  Rows equal in the [order] column
    come in one of the orders the service may choose; no property
    below depends on which. *)

Definition column (r : Resource) (c : string) : value :=
  let opt {A} (f : A -> value) (o : option A) :=
    match o with Some a => f a | None => VNull end in
  if String.eqb c "id" then VString (id r)
  else if String.eqb c "title" then VString (title r)
  else if String.eqb c "description" then opt VString (description r)
  else if String.eqb c "category" then VString (category r)
  else if String.eqb c "price" then VNumber (price r)
  else if String.eqb c "location" then VString (location r)
  else if String.eqb c "image_url" then opt VString (image_url r)
  else if String.eqb c "availability_start" then VString (availability_start r)
  else if String.eqb c "availability_end" then VString (availability_end r)
  else if String.eqb c "is_available" then opt VBool (is_available r)
  else if String.eqb c "owner_id" then VString (owner_id r)
  else if String.eqb c "created_at" then VTime (created_at r)
  else VNull.

Definition number_eqb (a b : number) : bool :=
  match a, b with
  | NaN, NaN => true
  | Inf s, Inf t => Bool.eqb s t
  | Num x, Num y => Qeq_bool x y
  | _, _ => false
  end.

Definition number_leb (a b : number) : bool :=
  match a, b with
  | _, NaN => true
  | NaN, _ => false
  | Inf true, _ => true
  | _, Inf true => false
  | _, Inf false => true
  | Inf false, _ => false
  | Num x, Num y => Qle_bool x y
  end.

(** SQL [=]: never true on a null. *)
Definition sql_eq (v w : value) : bool :=
  match v, w with
  | VBool a, VBool b => Bool.eqb a b
  | VNumber a, VNumber b => number_eqb a b
  | VString a, VString b => String.eqb a b
  | VTime a, VTime b => a =? b
  | _, _ => false
  end.

Definition rank (v : value) : nat :=
  match v with
  | VBool _ => 0
  | VNumber _ => 1
  | VString _ => 2
  | VTime _ => 3
  | VNull => 4
  end.

Definition value_leb (v w : value) : bool :=
  match v, w with
  | VBool a, VBool b => implb a b
  | VNumber a, VNumber b => number_leb a b
  | VString a, VString b => String.leb a b
  | VTime a, VTime b => a <=? b
  | _, _ => (rank v <=? rank w)%nat
  end.

Section Sort.
Context {A : Type} (leb : A -> A -> bool).

Fixpoint insert_by (x : A) (l : list A) : list A :=
  match l with
  | [] => [x]
  | y :: l' => if leb x y then x :: l else y :: insert_by x l'
  end.

Definition sort_by (l : list A) : list A := fold_right insert_by [] l.

End Sort.

Definition passes (filters : list (string * value)) (r : Resource) : bool :=
  forallb (fun f => sql_eq (column r (fst f)) (snd f)) filters.

Definition before (c : string) (ascending : bool) (a b : Resource) : bool :=
  if ascending then value_leb (column a c) (column b c)
  else value_leb (column b c) (column a c).

Definition run_select (q : request) (rows : list Resource) : list Resource :=
  match q with
  | Select _ filters order =>
      let kept := List.filter (passes filters) rows in
      match order with
      | Some (c, ascending) => sort_by (before c ascending) kept
      | None => kept
      end
  | _ => []
  end.

(** The service as a backend over the rows the caller may read: it
    answers a select with its evaluation, or fails. *)
Definition service (up : bool) (rows : list Resource) (q : request)
    : response (list Resource) :=
  if up then {| data := Some (run_select q rows); error := None |}
  else {| data := None; error := Some "FetchError" |}.

End Resources.

(** ** Booking form ([BookResource]) *)

Module BookResource.
Import Js Client.

Record Resource : Type := {
  id : string;
  title : string;
  description : string;
  category : string;
  price : number;
  location : string;
  image_url : option string;
  availability_start : string;
  availability_end : string;
  owner_id : string
}.

Record State : Type := {
  resource : option Resource;
  loading : bool;
  booking : bool;
  startDate : string;
  endDate : string;
  paymentMethod : string
}.

Definition initial : State :=
  {| resource := None; loading := true; booking := false;
     startDate := ""; endDate := ""; paymentMethod := "card" |}.

Definition setBooking (v : bool) (st : State) : State :=
  {| resource := resource st; loading := loading st; booking := v;
     startDate := startDate st; endDate := endDate st;
     paymentMethod := paymentMethod st |}.

Definition setStartDate (v : string) (st : State) : State :=
  {| resource := resource st; loading := loading st; booking := booking st;
     startDate := v; endDate := endDate st;
     paymentMethod := paymentMethod st |}.

Definition setEndDate (v : string) (st : State) : State :=
  {| resource := resource st; loading := loading st; booking := booking st;
     startDate := startDate st; endDate := v;
     paymentMethod := paymentMethod st |}.

Section Handlers.
Context `{Runtime}.

Definition calculateTotalPrice (st : State) : number :=
  match negb (truthy (startDate st)) || negb (truthy (endDate st)), resource st with
  | false, Some resource =>
      let start := Date_getTime (startDate st) in
      let end_ := Date_getTime (endDate st) in
      let days :=
        Math_ceil
          (div (sub end_ start)
               (mul (mul (mul (Num 1000) (Num 60)) (Num 60)) (Num 24))) in
      mul (Math_max (Num 1) days) (price resource)
  | _, _ => Num 0
  end.

Definition bookingRow (user : Auth.User) (resource : Resource) (st : State)
    : gmap string value :=
  object [
    ("resource_id", VString (id resource));
    ("renter_id", VString (Auth.id user));
    ("owner_id", VString (owner_id resource));
    ("start_time", VString (startDate st));
    ("end_time", VString (endDate st));
    ("payment_method", VString (paymentMethod st));
    ("total_price", VNumber (calculateTotalPrice st));
    ("status", VString "pending")
  ].

Definition handleBooking (user : option Auth.User) (st : State) : prog State unit :=
  match user, resource st with
  | Some user, Some resource =>
      if String.eqb (owner_id resource) (Auth.id user) then
        Emit (Toast "Error" "You cannot book your own resource" true) Done
      else
        SetState (setBooking true)
          (Await (Insert "bookings" (bookingRow user resource st)) (fun res =>
             match error res with
             | Some _ =>
                 Emit (ConsoleError "Error creating booking:")
                   (Emit (Toast "Error" "Failed to create booking" true)
                     (SetState (setBooking false) Done))
             | None =>
                 Emit (Toast "Success!" "Booking request submitted successfully" false)
                   (Emit (Navigate "/dashboard")
                     (SetState (setBooking false) Done))
             end))
  | _, _ => Done
  end.

(** The total is shown once both inputs hold a value. *)
Definition shownTotal (st : State) : option number :=
  if truthy (startDate st) && truthy (endDate st)
  then Some (calculateTotalPrice st) else None.

End Handlers.

Definition setResource (v : option Resource) (st : State) : State :=
  {| resource := v; loading := loading st; booking := booking st;
     startDate := startDate st; endDate := endDate st;
     paymentMethod := paymentMethod st |}.

Definition setLoading (v : bool) (st : State) : State :=
  {| resource := resource st; loading := v; booking := booking st;
     startDate := startDate st; endDate := endDate st;
     paymentMethod := paymentMethod st |}.

(** A select ended by [.single()]: it resolves to one row. *)
Inductive query : Type -> Type :=
| SelectSingle (q : request) : query Resource.

(** [from("resources").select("*").eq("id", id).eq("is_available", true)] *)
Definition resourceQuery (id : string) : request :=
  Select "resources" [("id", VString id); ("is_available", VBool true)] None.

(** [id] is the route parameter, absent or a string. *)
Definition fetchResource (id : option string) : Typed.prog query State :=
  match id with
  | Some i =>
      if truthy i then
        Typed.Await (SelectSingle (resourceQuery i)) (fun res =>
          match error res with
          | Some _ =>
              Typed.Emit (ConsoleError "Error fetching resource:")
                (Typed.Emit (Toast "Error" "Resource not found or unavailable" true)
                  (Typed.Emit (Navigate "/resources")
                    (Typed.SetState (setLoading false) Typed.Done)))
          | None =>
              Typed.SetState (setResource (data res))
                (Typed.SetState (setLoading false) Typed.Done)
          end)
      else Typed.Done
  | None => Typed.Done
  end.

(** The effect run when the page is entered. *)
Definition mount (user : option Auth.User) (id : option string)
    : Typed.prog query State :=
  match user with
  | None => Typed.Emit (Navigate "/auth") Typed.Done
  | Some _ => fetchResource id
  end.

(** What the page renders. *)
Inductive view : Type :=
| LoadingView
| NotFoundView
| FormView (r : Resource).

Definition render (st : State) : view :=
  if loading st then LoadingView
  else match resource st with
       | None => NotFoundView
       | Some r => FormView r
       end.

End BookResource.

(** ** Resource creation ([src/pages/AddResource.tsx]) *)

Module AddResource.
Import Js Client.

Record State : Type := {
  loading : bool;
  formData : gmap string string
}.

Definition initial : State :=
  {| loading := false;
     formData := object [
       ("title", ""); ("description", ""); ("category", ""); ("price", "");
       ("location", ""); ("image_url", "");
       ("availability_start", ""); ("availability_end", "") ] |}.

Definition setLoading (v : bool) (st : State) : State :=
  {| loading := v; formData := formData st |}.

(** [setFormData(prev => ({ ...prev, [name]: value }))] *)
Definition handleInputChange (name value : string) (st : State) : State :=
  {| loading := loading st; formData := extend (formData st) [(name, value)] |}.

(** The [name] attributes of the form controls. *)
Definition fields : list string :=
  ["title"; "description"; "category"; "price"; "location"; "image_url";
   "availability_start"; "availability_end"].

(** The form after a sequence of input events, oldest first. *)
Definition typed (changes : list (string * string)) (st : State) : State :=
  fold_left (fun st' c => handleInputChange (fst c) (snd c) st') changes st.

(** Reading a property as a string: a missing one reads [undefined]. *)
Definition property (o : gmap string string) (k : string) : string :=
  default "undefined" (o !! k).

Section Handlers.
Context `{Runtime}.

Definition resourceRow (user : Auth.User) (st : State) : gmap string value :=
  extend (VString <$> formData st) [
    ("price", VNumber (parseFloat (property (formData st) "price")));
    ("owner_id", VString (Auth.id user));
    ("is_available", VBool true)
  ].

Definition handleSubmit (user : option Auth.User) (st : State) : prog State unit :=
  match user with
  | None => Emit (Navigate "/auth") Done
  | Some user =>
      SetState (setLoading true)
        (Await (Insert "resources" (resourceRow user st)) (fun res =>
           match error res with
           | Some _ =>
               Emit (ConsoleError "Error adding resource:")
                 (Emit (Toast "Error" "Failed to add resource" true)
                   (SetState (setLoading false) Done))
           | None =>
               Emit (Toast "Success!" "Resource added successfully" false)
                 (Emit (Navigate "/dashboard")
                   (SetState (setLoading false) Done))
           end))
  end.

End Handlers.

End AddResource.

(** ** Dashboard *)

Module Dashboard.
Import Js Client.

Module Resource.
Record t : Type := {
  id : string;
  title : string;
  description : option string;
  category : string;
  price : number;
  location : string;
  image_url : option string;
  is_available : option bool
}.
End Resource.

Module Booking.
Record t : Type := {
  id : string;
  start_time : string;
  end_time : string;
  total_price : number;
  status : string;
  resource_id : string;
  resources : Resource.t
}.

(** [{ ...booking, status }] *)
Definition with_status (booking : t) (status' : string) : t :=
  {| id := id booking; start_time := start_time booking;
     end_time := end_time booking; total_price := total_price booking;
     status := status'; resource_id := resource_id booking;
     resources := resources booking |}.
End Booking.

Record State : Type := {
  myResources : list Resource.t;
  myBookings : list Booking.t;
  resourceBookings : list Booking.t;
  loading : bool
}.

Definition initial : State :=
  {| myResources := []; myBookings := []; resourceBookings := []; loading := true |}.

Definition setMyResources (f : list Resource.t -> list Resource.t) (st : State) : State :=
  {| myResources := f (myResources st); myBookings := myBookings st;
     resourceBookings := resourceBookings st; loading := loading st |}.

Definition setResourceBookings (f : list Booking.t -> list Booking.t) (st : State) : State :=
  {| myResources := myResources st; myBookings := myBookings st;
     resourceBookings := f (resourceBookings st); loading := loading st |}.

Definition deleteRequest (resourceId : string) : request :=
  Delete "resources" [("id", VString resourceId)].

Definition updateRequest (bookingId status : string) : request :=
  Update "bookings" (object [("status", VString status)])
    [("id", VString bookingId)].

Definition deleteResource (resourceId : string) : prog State unit :=
  Await (deleteRequest resourceId) (fun res =>
    match error res with
    | Some _ =>
        Emit (ConsoleError "Error deleting resource:")
          (Emit (Toast "Error" "Failed to delete resource" true) Done)
    | None =>
        SetState
          (setMyResources
             (List.filter (fun r => negb (String.eqb (Resource.id r) resourceId))))
          (Emit (Toast "Success" "Resource deleted successfully" false) Done)
    end).

Definition updateBookingStatus (bookingId status : string) : prog State unit :=
  Await (updateRequest bookingId status) (fun res =>
    match error res with
    | Some _ =>
        Emit (ConsoleError "Error updating booking:")
          (Emit (Toast "Error" "Failed to update booking" true) Done)
    | None =>
        SetState
          (setResourceBookings
             (List.map (fun booking =>
                if String.eqb (Booking.id booking) bookingId
                then Booking.with_status booking status
                else booking)))
          (Emit (Toast "Success" ("Booking " +:+ status +:+ " successfully") false)
             Done)
    end).

(** The buttons the requests tab renders next to a booking, each with
    its click handler. *)
Definition requestButtons (booking : Booking.t) : list (string * prog State unit) :=
  if String.eqb (Booking.status booking) "pending" then
    [ ("Accept", updateBookingStatus (Booking.id booking) "confirmed");
      ("Reject", updateBookingStatus (Booking.id booking) "rejected") ]
  else [].

(** The handler behind a button of the given label, if it is rendered. *)
Definition click (label : string) (booking : Booking.t) : option (prog State unit) :=
  snd <$> List.find (fun b => String.eqb (fst b) label) (requestButtons booking).

Definition setMyBookings (v : list Booking.t) (st : State) : State :=
  {| myResources := myResources st; myBookings := v;
     resourceBookings := resourceBookings st; loading := loading st |}.

Definition setLoading (v : bool) (st : State) : State :=
  {| myResources := myResources st; myBookings := myBookings st;
     resourceBookings := resourceBookings st; loading := v |}.

(** The selects of the dashboard: rows of [resources], and rows of
    [bookings] with the summary of their resource nested in. *)
Inductive query : Type -> Type :=
| SelectResources (q : request) : query (list Resource.t)
| SelectBookings (q : request) : query (list Booking.t).

Definition ownedQuery (uid : string) : request :=
  Select "resources" [("owner_id", VString uid)] (Some ("created_at", false)).

Definition madeQuery (uid : string) : request :=
  Select "bookings" [("renter_id", VString uid)] (Some ("created_at", false)).

Definition receivedQuery (uid : string) : request :=
  Select "bookings" [("owner_id", VString uid)] (Some ("created_at", false)).

(** The [catch] and [finally] blocks of [fetchDashboardData]. *)
Definition fetchFailed : Typed.prog query State :=
  Typed.Emit (ConsoleError "Error fetching dashboard data:")
    (Typed.Emit (Toast "Error" "Failed to load dashboard data" true)
      (Typed.SetState (setLoading false) Typed.Done)).

Definition fetchDashboardData (user : option Auth.User) : Typed.prog query State :=
  match user with
  | None => Typed.Done
  | Some user =>
      Typed.Await (SelectResources (ownedQuery (Auth.id user))) (fun res1 =>
        match error res1 with
        | Some _ => fetchFailed
        | None =>
            Typed.SetState (setMyResources (fun _ => default [] (data res1)))
              (Typed.Await (SelectBookings (madeQuery (Auth.id user))) (fun res2 =>
                 match error res2 with
                 | Some _ => fetchFailed
                 | None =>
                     Typed.SetState (setMyBookings (default [] (data res2)))
                       (Typed.Await (SelectBookings (receivedQuery (Auth.id user)))
                          (fun res3 =>
                             match error res3 with
                             | Some _ => fetchFailed
                             | None =>
                                 Typed.SetState
                                   (setResourceBookings
                                      (fun _ => default [] (data res3)))
                                   (Typed.SetState (setLoading false) Typed.Done)
                             end))
                 end))
        end)
  end.

(** The effect run when the page is entered. *)
Definition mount (user : option Auth.User) : Typed.prog query State :=
  match user with
  | None => Typed.Emit (Navigate "/auth") Typed.Done
  | Some _ => fetchDashboardData user
  end.

End Dashboard.

(** ** Landing page ([src/pages/Index.tsx]) *)

Module Landing.
Import Js Client.

(** The rows are those of the listing: the same table, every column. *)
Record State : Type := {
  featuredResources : list Resources.Resource
}.

Definition initial : State := {| featuredResources := [] |}.

Definition setFeaturedResources (v : list Resources.Resource) (st : State) : State :=
  {| featuredResources := v |}.

(** A select ended by [.limit(count)]. *)
Inductive query : Type -> Type :=
| SelectLimit (q : request) (count : nat) : query (list Resources.Resource).

Definition featuredQuery : query (list Resources.Resource) :=
  SelectLimit
    (Select "resources" [("is_available", VBool true)] (Some ("created_at", false)))
    6.

(** The [error] member of the answer is not read. *)
Definition fetchFeaturedResources : Typed.prog query State :=
  Typed.Await featuredQuery (fun res =>
    Typed.SetState (setFeaturedResources (default [] (data res))) Typed.Done).

(** [featuredResources.length > 0]: the section is rendered. *)
Definition showsFeatured (st : State) : bool :=
  (0 <? length (featuredResources st))%nat.

(** The service on a limited select: the first [count] rows of the
    evaluation of the select, or a failure. *)
Definition service (up : bool) (rows : list Resources.Resource)
    (D : Type) (q : query D) : response D :=
  match q in query D' return response D' with
  | SelectLimit q' count =>
      if up then
        {| data := Some (firstn count (Resources.run_select q' rows)); error := None |}
      else {| data := None; error := Some "FetchError" |}
  end.

End Landing.

(** ** Constraints and row policies of the migration *)

Module Policies.
Import Js.

Definition resources_columns : list string :=
  ["id"; "owner_id"; "title"; "description"; "category"; "price"; "location";
   "image_url"; "availability_start"; "availability_end"; "is_available";
   "created_at"; "updated_at"].

Definition bookings_columns : list string :=
  ["id"; "resource_id"; "renter_id"; "owner_id"; "start_time"; "end_time";
   "total_price"; "status"; "payment_method"; "created_at"; "updated_at"].

(** [NUMERIC NOT NULL CHECK (c >= 0)] on a member of an inserted row:
    a finite number at least 0 (JSON has no NaN or infinity: they are
    sent as null). *)
Definition numeric_nonneg (v : option value) : bool :=
  match v with
  | Some (VNumber (Num q)) => Qle_bool 0 q
  | _ => false
  end.

(** The check of [bookings.status] on an inserted row; the column has a
    default and admits null. *)
Definition status_ok (row : gmap string value) : bool :=
  match row !! "status" with
  | Some (VString s) => Schema.bookings_status_check s
  | Some VNull | None => true
  | Some _ => false
  end.

(** "Anyone can view available resources" or "Users can view their own
    resources"; [uid] is [auth.uid()], absent without a session. *)
Definition resources_select (uid : option string) (r : Resources.Resource) : bool :=
  match Resources.is_available r with Some true => true | _ => false end
  || match uid with
     | Some u => String.eqb (Resources.owner_id r) u
     | None => false
     end.

(** "Users can insert their own resources": [owner_id = auth.uid()]. *)
Definition resources_insert (uid : string) (row : gmap string value) : bool :=
  match row !! "owner_id" with
  | Some (VString o) => String.eqb o uid
  | _ => false
  end.

(** "Users can insert bookings as renter": [renter_id = auth.uid()]. *)
Definition bookings_insert (uid : string) (row : gmap string value) : bool :=
  match row !! "renter_id" with
  | Some (VString o) => String.eqb o uid
  | _ => false
  end.

(** The database of the migration as a backend for inserts and
    updates, as far as the check on [bookings.status] goes: a row or
    patch for [bookings] whose status is not listed is refused with a
    check violation; every other request is accepted. *)
Definition checked (q : Client.request) : Client.response unit :=
  let accepted := {| Client.data := None; Client.error := None |} in
  let refused := {| Client.data := None; Client.error := Some "23514" |} in
  match q with
  | Client.Insert table row | Client.Update table row _ =>
      if String.eqb table "bookings" && negb (status_ok row)
      then refused else accepted
  | _ => accepted
  end.

End Policies.

(** ** Vocabulary of the properties *)

(** Milliseconds in a day. *)
Definition msPerDay : Z := 86400000.

(** [t] occurs in [s]: some prefix and suffix surround it. *)
Definition occurs_in (t s : string) : Prop :=
  exists pre suf : string, s = pre +:+ t +:+ suf.

(** Newest first: every row is at least as recent as the rows after it. *)
Definition newest_first (l : list Resources.Resource) : Prop :=
  StronglySorted (fun a b => Resources.created_at b <= Resources.created_at a) l.

Definition available (r : Resources.Resource) : Prop :=
  Resources.is_available r = Some true.



(** A backend that reports no error, whatever the request. *)
Definition ok_backend : Client.request -> Client.response unit :=
  fun _ => {| Client.data := None; Client.error := None |}.

(** ** Sample data *)

Module Sample.
Import Js.

Definition renter : Auth.User := {| Auth.id := "u-renter" |}.
Definition owner : Auth.User := {| Auth.id := "u-owner" |}.

Definition drill : BookResource.Resource :=
  {| BookResource.id := "r-drill"; BookResource.title := "Cordless Drill";
     BookResource.description := "18V, two batteries";
     BookResource.category := "Tools"; BookResource.price := Num 10;
     BookResource.location := "Pune"; BookResource.image_url := None;
     BookResource.availability_start := "2025-01-01T00:00:00+00:00";
     BookResource.availability_end := "2025-01-31T00:00:00+00:00";
     BookResource.owner_id := "u-owner" |}.

(** 25 hours from the start to the end input. *)
Definition form_25h : BookResource.State :=
  {| BookResource.resource := Some drill; BookResource.loading := false;
     BookResource.booking := false;
     BookResource.startDate := "2025-01-01T10:00";
     BookResource.endDate := "2025-01-02T11:00";
     BookResource.paymentMethod := "card" |}.

(** The end input not yet set. *)
Definition form_no_end : BookResource.State :=
  BookResource.setEndDate "" form_25h.

Definition row (id title : string) (description : option string)
    (category location : string) (flag : option bool) (created : Z)
    : Resources.Resource :=
  {| Resources.id := id; Resources.title := title;
     Resources.description := description; Resources.category := category;
     Resources.price := Num 10; Resources.location := location;
     Resources.image_url := None;
     Resources.availability_start := "2025-01-01T00:00:00+00:00";
     Resources.availability_end := "2025-01-31T00:00:00+00:00";
     Resources.is_available := flag; Resources.owner_id := "u-owner";
     Resources.created_at := created |}.

Definition table : list Resources.Resource :=
  [ row "r1" "Cordless Drill" (Some "18V") "Tools" "Pune" (Some true) 100;
    row "r2" "Road Bike" None "Sports" "Mumbai" (Some false) 200;
    row "r3" "Tent" (Some "Sleeps four") "Equipment" "Pune" (Some true) 300;
    row "r4" "Ladder" None "Tools" "Delhi" None 400 ].

Definition form : AddResource.State :=
  AddResource.handleInputChange "price" "12.50"
    (AddResource.handleInputChange "title" "Tent" AddResource.initial).

Definition owned (id : string) : Dashboard.Resource.t :=
  {| Dashboard.Resource.id := id; Dashboard.Resource.title := "Tent";
     Dashboard.Resource.description := None;
     Dashboard.Resource.category := "Equipment";
     Dashboard.Resource.price := Num 10;
     Dashboard.Resource.location := "Pune";
     Dashboard.Resource.image_url := None;
     Dashboard.Resource.is_available := Some true |}.

Definition request (id status : string) : Dashboard.Booking.t :=
  {| Dashboard.Booking.id := id;
     Dashboard.Booking.start_time := "2025-01-02T10:00:00+00:00";
     Dashboard.Booking.end_time := "2025-01-03T10:00:00+00:00";
     Dashboard.Booking.total_price := Num 10;
     Dashboard.Booking.status := status;
     Dashboard.Booking.resource_id := "r3";
     Dashboard.Booking.resources := owned "r3" |}.

Definition dashboard : Dashboard.State :=
  {| Dashboard.myResources := [owned "r1"; owned "r3"];
     Dashboard.myBookings := [];
     Dashboard.resourceBookings := [request "b1" "pending"; request "b2" "confirmed"];
     Dashboard.loading := false |}.




(** The start input holding text that is not a date. *)
Definition form_invalid : BookResource.State :=
  BookResource.setStartDate "soon" form_25h.

(** A backend that refuses every request. *)
Definition refusing : Client.request -> Client.response unit :=
  fun _ => {| Client.data := None; Client.error := Some "denied" |}.

(** A backend that answers the booking page with the drill. *)
Definition single_backend (D : Type) (q : BookResource.query D) : Client.response D :=
  match q in BookResource.query D' return Client.response D' with
  | BookResource.SelectSingle _ =>
      {| Client.data := Some drill; Client.error := None |}
  end.

(** A backend that answers the dashboard: one owned resource, no
    booking made, the two sample requests received. *)
Definition dashboard_backend (D : Type) (q : Dashboard.query D) : Client.response D :=
  match q in Dashboard.query D' return Client.response D' with
  | Dashboard.SelectResources _ =>
      {| Client.data := Some [owned "r1"]; Client.error := None |}
  | Dashboard.SelectBookings (Client.Select _ [("renter_id", _)] _) =>
      {| Client.data := Some []; Client.error := None |}
  | Dashboard.SelectBookings _ =>
      {| Client.data := Some [request "b1" "pending"; request "b2" "confirmed"];
         Client.error := None |}
  end.

Definition listing : Resources.State :=
  {| Resources.resources := table; Resources.loading := false;
     Resources.searchTerm := "pu"; Resources.selectedCategory := "" |}.

End Sample.

(** * Properties *)

(** ** Arithmetic of the price formula *)

Section NumberFacts.
Import Js.

Lemma msPerDay_product :
  mul (mul (mul (Num 1000) (Num 60)) (Num 60)) (Num 24) = Num (inject_Z msPerDay).
Proof. reflexivity. Qed.

Lemma floor_log2_upper (n d : positive) (K : Z) :
  0 <= K -> Zpos n < Zpos d * 2 ^ K -> floor_log2 n d <= K - 1.
Proof.
  intros HK Hn. unfold floor_log2.
  pose proof (Z.log2_spec (Zpos n) ltac:(lia)) as [Hn1 _].
  pose proof (Z.log2_spec (Zpos d) ltac:(lia)) as [_ Hd2].
  pose proof (Z.log2_nonneg (Zpos n)) as Ln.
  pose proof (Z.log2_nonneg (Zpos d)) as Ld.
  set (a := Z.log2 (Zpos n)) in *. set (b := Z.log2 (Zpos d)) in *.
  destruct (0 <=? a - b) eqn:He0.
  - apply Z.leb_le in He0.
    assert (Hab : a - b <= K).
    { assert (2 ^ a < 2 ^ (Z.succ b + K)).
      { rewrite Z.pow_add_r by lia.
        assert (0 < 2 ^ K) by (apply Z.pow_pos_nonneg; lia). nia. }
      apply Z.pow_lt_mono_r_iff in H; lia. }
    destruct (Zpos d * 2 ^ (a - b) <=? Zpos n) eqn:Hc; [| lia].
    apply Z.leb_le in Hc.
    assert (2 ^ (a - b) < 2 ^ K) by nia.
    apply Z.pow_lt_mono_r_iff in H; lia.
  - apply Z.leb_gt in He0. destruct (_ <=? _); lia.
Qed.

Lemma nearest_even_error (N D : Z) :
  0 < D ->
  2 * (nearest_even N D * D - N) <= D /\ 2 * (N - nearest_even N D * D) <= D.
Proof.
  intros HD. unfold nearest_even.
  pose proof (Z.div_mod N D ltac:(lia)) as Hdm.
  pose proof (Z.mod_pos_bound N D HD) as Hr.
  destruct (2 * (N mod D) ?= D) eqn:Hc.
  - apply Z.compare_eq in Hc. destruct (Z.even (N / D)); nia.
  - rewrite Z.compare_lt_iff in Hc. nia.
  - rewrite Z.compare_gt_iff in Hc. nia.
Qed.

Lemma nearest_even_exact (k D : Z) : 0 < D -> nearest_even (k * D) D = k.
Proof.
  intros HD. unfold nearest_even.
  rewrite Z.mod_mul, Z.div_mul by lia.
  destruct (2 * 0 ?= D) eqn:Hc; [| reflexivity |].
  - apply Z.compare_eq in Hc. lia.
  - rewrite Z.compare_gt_iff in Hc. lia.
Qed.

Lemma Qred_inject_Z (z : Z) : Qred (inject_Z z) = inject_Z z.
Proof.
  unfold Qred, inject_Z. cbn [Qnum Qden].
  pose proof (Z.ggcd_gcd z 1) as Hg. pose proof (Z.ggcd_correct_divisors z 1) as Hd.
  destruct (Z.ggcd z 1) as [g [a b]]. cbn [fst snd] in *.
  rewrite Z.gcd_1_r in Hg. rewrite <- Hg in Hd. destruct Hd as [Ha Hb].
  assert (Ea : a = z) by lia. assert (Eb : b = 1) by lia.
  rewrite Ea, Eb. reflexivity.
Qed.

Lemma nearest_even_one (z : Z) : nearest_even z 1 = z.
Proof.
  pose proof (nearest_even_exact z 1 ltac:(lia)) as X. now rewrite Z.mul_1_r in X.
Qed.

(** An integer below 2^53 is a binary64. *)
Lemma round_pos_integer (n : positive) :
  Zpos n < 2 ^ 53 -> round_pos n 1 = Num (inject_Z (Zpos n)).
Proof.
  intros Hn. unfold round_pos.
  pose proof (floor_log2_upper n 1 53 ltac:(lia) ltac:(lia)) as HE.
  set (E := floor_log2 n 1) in *.
  destruct (1024 <=? E) eqn:H1; [apply Z.leb_le in H1; lia |].
  set (u := Z.max E (-1022) - 52).
  assert (Hu : u <= 0) by (unfold u; lia).
  clearbody u.
  destruct (0 <=? u) eqn:H0.
  - apply Z.leb_le in H0. assert (u = 0) by lia. subst u.
    change (2 ^ 0) with 1. change (Z.pos 1 * 1) with 1.
    rewrite nearest_even_one, Z.mul_1_r.
    destruct (2 ^ 1024 <=? Z.pos n) eqn:Ho.
    + apply Z.leb_le in Ho.
      assert (2 ^ 53 < 2 ^ 1024) by (apply Z.pow_lt_mono_r; lia). lia.
    + cbn [andb]. unfold scale2. cbn [Z.leb Z.compare].
      change (2 ^ 0) with 1. rewrite Z.mul_1_r. now rewrite Qred_inject_Z.
  - apply Z.leb_gt in H0. cbn [andb].
    assert (HW : 0 < 2 ^ (- u)) by (apply Z.pow_pos_nonneg; lia).
    rewrite nearest_even_one.
    unfold scale2. destruct (0 <=? u) eqn:H0'; [apply Z.leb_le in H0'; lia |].
    rewrite <- Qred_inject_Z. f_equal. apply Qred_complete.
    unfold Qeq, inject_Z. cbn [Qnum Qden]. rewrite Z2Pos.id by lia. lia.
Qed.

Lemma round64_integer (d : Z) :
  Z.abs d < 2 ^ 53 -> round64 (inject_Z d) = Num (inject_Z d).
Proof.
  intros Hd. unfold round64, inject_Z. cbn [Qnum Qden]. destruct d as [| n | n].
  - reflexivity.
  - apply round_pos_integer. lia.
  - rewrite round_pos_integer by lia. reflexivity.
Qed.

Lemma Qceiling_frac (m : Z) (P : positive) : Qceiling (m # P) = - ((- m) / Zpos P).
Proof. reflexivity. Qed.

Lemma Qfloor_frac (m : Z) (P : positive) : Qfloor (m # P) = m / Zpos P.
Proof. reflexivity. Qed.

(** The binary64 nearest to a quotient of milliseconds by a day has the
    floor and the ceiling of the quotient, below [2^27] days. *)
Lemma round_pos_days (n : positive) :
  Zpos n < msPerDay * 2 ^ 27 ->
  exists v, round_pos n 86400000 = Num v
    /\ Qfloor v = Zpos n / msPerDay
    /\ Qceiling v = - ((- Zpos n) / msPerDay).
Proof.
  intros Hn. unfold round_pos.
  pose proof (floor_log2_upper n 86400000 27 ltac:(lia) Hn) as HE.
  set (E := floor_log2 n 86400000) in *.
  destruct (1024 <=? E) eqn:H1; [apply Z.leb_le in H1; lia |].
  set (u := Z.max E (-1022) - 52).
  assert (Hu : u <= -26) by (unfold u; lia).
  clearbody u.
  destruct (0 <=? u) eqn:H0; [apply Z.leb_le in H0; lia |]. cbn [andb].
  eexists. split; [reflexivity |].
  unfold scale2. rewrite H0.
  set (W := 2 ^ (- u)).
  assert (HW : 2 ^ 26 <= W) by (apply Z.pow_le_mono_r; lia).
  assert (HW0 : 0 < W) by lia.
  set (m := nearest_even (Z.pos n * W) (Z.pos 86400000)).
  destruct (nearest_even_error (Z.pos n * W) (Z.pos 86400000) ltac:(lia)) as [Eu El].
  fold m in Eu, El.
  set (N := Z.pos n) in *.
  rewrite (Qfloor_comp _ _ (Qred_correct _)), (Qceiling_comp _ _ (Qred_correct _)).
  rewrite Qfloor_frac, Qceiling_frac, Z2Pos.id by lia.
  unfold msPerDay in *. split.
  - pose proof (Z.div_mod N 86400000 ltac:(lia)) as Hdm.
    pose proof (Z.mod_pos_bound N 86400000 ltac:(lia)) as Hr.
    set (f := N / 86400000) in *.
    symmetry. apply Z.div_unique with (r := m - f * W); [| lia].
    left. split.
    + assert (f * 86400000 * W <= N * W) by nia. nia.
    + assert (N * W <= (f * 86400000 + 86400000 - 1) * W) by nia. nia.
  - f_equal.
    pose proof (Z.div_mod (- N) 86400000 ltac:(lia)) as Hdm.
    pose proof (Z.mod_pos_bound (- N) 86400000 ltac:(lia)) as Hr.
    set (g := (- N) / 86400000) in *.
    symmetry. apply Z.div_unique with (r := - m - g * W); [| lia].
    left. split.
    + assert (N * W <= (- g * 86400000) * W) by nia. nia.
    + assert ((- g * 86400000 - 86400000 + 1) * W <= N * W) by nia. nia.
Qed.

Lemma sub_instants (e s : Z) :
  Z.abs (e - s) < 2 ^ 53 ->
  sub (Num (inject_Z e)) (Num (inject_Z s)) = Num (inject_Z (e - s)).
Proof.
  intros Hd. unfold sub.
  replace (inject_Z e - inject_Z s)%Q with (inject_Z (e - s)).
  - now apply round64_integer.
  - unfold Qminus, Qplus, Qopp, inject_Z. cbn [Qnum Qden]. f_equal. lia.
Qed.

Lemma Math_max_one (c : Z) :
  Math_max (Num 1) (Num (inject_Z c)) = Num (inject_Z (Z.max 1 c)).
Proof.
  unfold Math_max, Qle_bool, inject_Z. cbn [Qnum Qden].
  destruct (Z.leb_spec (c * 1) (1 * 1)).
  - replace (Z.max 1 c) with 1 by lia. reflexivity.
  - replace (Z.max 1 c) with c by lia. reflexivity.
Qed.

(** The ceiling of a whole number of milliseconds over a day, in
    integer arithmetic. *)
Lemma Qceiling_days (d : Z) :
  Qceiling (inject_Z d / inject_Z msPerDay) = - ((- d) / msPerDay).
Proof.
  unfold Qceiling, Qfloor, Qdiv, Qmult, Qinv, Qopp, inject_Z, msPerDay.
  cbn [Qnum Qden]. f_equal. f_equal. lia.
Qed.

(** The days between two instants less than [2^53] milliseconds apart,
    as the code computes them: the binary64 difference is exact, and
    the ceiling of the binary64 quotient is that of the exact one. *)
Lemma days_rounded (e s : Z) :
  Z.abs (e - s) < 2 ^ 53 ->
  Math_ceil (div (sub (Num (inject_Z e)) (Num (inject_Z s)))
                 (Num (inject_Z msPerDay)))
  = Num (inject_Z (Qceiling (inject_Z (e - s) / inject_Z msPerDay))).
Proof.
  intros Hd. rewrite sub_instants by exact Hd. rewrite Qceiling_days.
  set (d := e - s) in *. clearbody d.
  unfold div. change (Qzero (inject_Z msPerDay)) with false. cbv iota.
  unfold Qdiv, Qmult, Qinv, inject_Z, round64, msPerDay. cbn [Qnum Qden].
  rewrite Z.mul_1_r. destruct d as [| n | n].
  - reflexivity.
  - destruct (round_pos_days n) as (v & Hv & _ & Hc); [unfold msPerDay; lia |].
    change (1 * 86400000)%positive with 86400000%positive.
    rewrite Hv. cbn [Math_ceil]. now rewrite Hc.
  - destruct (round_pos_days n) as (v & Hv & Hf & _); [unfold msPerDay; lia |].
    change (1 * 86400000)%positive with 86400000%positive.
    rewrite Hv. cbn [neg Math_ceil]. unfold Qceiling.
    rewrite (Qfloor_comp _ _ (Qopp_opp v)), Hf. reflexivity.
Qed.



Lemma nearest_even_nonneg (n d : Z) : 0 <= n -> 0 < d -> 0 <= nearest_even n d.
Proof.
  intros Hn Hd. unfold nearest_even.
  assert (0 <= n / d) by (apply Z.div_pos; lia).
  destruct (2 * (n mod d) ?= d); [destruct (Z.even _) | |]; lia.
Qed.

Lemma scale2_nonneg (m u : Z) : 0 <= m -> (0 <= scale2 m u)%Q.
Proof.
  intros Hm. unfold scale2. rewrite Qred_correct.
  destruct (0 <=? u) eqn:Hu.
  - change 0%Q with (inject_Z 0). rewrite <- Zle_Qle.
    apply Z.leb_le in Hu. apply Z.mul_nonneg_nonneg; [exact Hm |].
    apply Z.pow_nonneg. lia.
  - unfold Qle. cbn [Qnum Qden]. lia.
Qed.

(** Rounding keeps a number that is not negative not negative. *)
Lemma round64_nonneg (q t : Q) : (0 <= q)%Q -> round64 q = Num t -> (0 <= t)%Q.
Proof.
  destruct q as [n d]. unfold round64. cbn [Qnum Qden]. destruct n as [| n | n].
  - intros _ [= <-]. apply Qle_refl.
  - intros _. unfold round_pos. destruct (1024 <=? floor_log2 n d); [discriminate |].
    set (u := Z.max (floor_log2 n d) (-1022) - 52).
    destruct (0 <=? u) eqn:Hu; cbn [andb].
    + apply Z.leb_le in Hu. destruct (2 ^ 1024 <=? _); [discriminate |].
      intros [= <-]. apply scale2_nonneg, nearest_even_nonneg; [lia |].
      apply Z.mul_pos_pos; [lia |]. apply Z.pow_pos_nonneg; lia.
    + intros [= <-]. apply scale2_nonneg, nearest_even_nonneg; [| lia].
      apply Z.mul_nonneg_nonneg; [lia |]. apply Z.pow_nonneg. lia.
  - intros Hq. unfold Qle in Hq. cbn [Qnum Qden] in Hq. lia.
Qed.

Lemma truthy_true (s : string) : truthy s = true <-> s <> "".
Proof.
  unfold truthy. rewrite negb_true_iff. apply String.eqb_neq.
Qed.

Lemma truthy_false (s : string) : truthy s = false <-> s = "".
Proof.
  unfold truthy. rewrite negb_false_iff. apply String.eqb_eq.
Qed.

End NumberFacts.

(** ** Booking form: the total price *)

Section BookingPrice.
Import Js Client BookResource.
Context `{Runtime}.

Lemma calculateTotalPrice_days (st : State) (r : Resource) (s e : Z) :
  resource st = Some r ->
  startDate st <> "" -> endDate st <> "" ->
  Date_getTime (startDate st) = Num (inject_Z s) ->
  Date_getTime (endDate st) = Num (inject_Z e) ->
  Z.abs (e - s) < 2 ^ 53 ->
  calculateTotalPrice st =
    mul (Num (inject_Z (Z.max 1 (Qceiling (inject_Z (e - s) / inject_Z msPerDay)))))
        (price r).
Proof.
  intros Hr Hs He Ps Pe Hd. unfold calculateTotalPrice.
  apply truthy_true in Hs, He. rewrite Hs, He, Hr, Ps, Pe. cbn [negb orb].
  rewrite msPerDay_product, days_rounded by exact Hd.
  now rewrite Math_max_one.
Qed.


(** C10. While the start input, the end input or the resource is
    missing, [calculateTotalPrice] is 0, which for a positive price is
    not a one-day-minimum charge; a result other than 0 needs all three. *)
Theorem calculateTotalPrice_absent (st : State) :
  (startDate st = "" \/ endDate st = "" \/ resource st = None ->
   calculateTotalPrice st = Num 0)
  /\ (forall r p days,
        startDate st = "" \/ endDate st = "" ->
        resource st = Some r -> price r = Num p -> (0 < p)%Q ->
        calculateTotalPrice st <> Num (inject_Z (Z.max 1 days) * p))
  /\ (calculateTotalPrice st <> Num 0 ->
      startDate st <> "" /\ endDate st <> "" /\ resource st <> None).
Proof.
  assert (H0 : startDate st = "" \/ endDate st = "" \/ resource st = None ->
               calculateTotalPrice st = Num 0).
  { unfold calculateTotalPrice. intros [Hs | [He | Hr]].
    - apply truthy_false in Hs. rewrite Hs. reflexivity.
    - apply truthy_false in He. rewrite He, orb_true_r. reflexivity.
    - rewrite Hr. now destruct (_ || _). }
  split; [exact H0 |]. split.
  - intros r p days Hd Hr Hp Hpos. rewrite H0 by tauto.
    intros Heq. injection Heq as Hn _.
    destruct p as [n d]. unfold Qlt in Hpos. cbn in Hpos, Hn. nia.
  - intros Hne. repeat split; intros Habs; apply Hne, H0; tauto.
Qed.

End BookingPrice.

(** ** Booking form: submission *)

Section BookingSubmit.
Import Js Client BookResource.
Context `{Runtime}.

Lemma bookingRow_status (u : Auth.User) (r : Resource) (st : State) :
  bookingRow u r st !! "status" = Some (VString "pending").
Proof. unfold bookingRow, object, extend. cbn [fold_left fst snd]. apply lookup_insert_eq. Qed.

Lemma handleBooking_requests (backend : request -> response unit)
    (user : option Auth.User) (st : State) :
  requests (run backend (handleBooking user st) st) =
    match user, resource st with
    | Some u, Some r =>
        if String.eqb (owner_id r) (Auth.id u) then []
        else [Insert "bookings" (bookingRow u r st)]
    | _, _ => []
    end.
Proof.
  unfold handleBooking. destruct user as [u|], (resource st) as [r|]; try reflexivity.
  destruct (String.eqb _ _); [reflexivity |].
  cbn [run requests]. now destruct (error _).
Qed.

(** C4. Every request a booking submission issues is an insert into
    [bookings] whose row has status "pending", whatever the form holds;
    and a submission by a signed-in user who is not the owner issues
    exactly that insert. *)
Theorem handleBooking_inserts_pending (backend : request -> response unit)
    (user : option Auth.User) (st : State) :
  Forall (fun q => exists row,
            q = Insert "bookings" row /\ row !! "status" = Some (VString "pending"))
         (requests (run backend (handleBooking user st) st))
  /\ (forall u r, user = Some u -> resource st = Some r ->
        owner_id r <> Auth.id u ->
        requests (run backend (handleBooking user st) st) =
          [Insert "bookings" (bookingRow u r st)]).
Proof.
  rewrite handleBooking_requests. split.
  - destruct user as [u|], (resource st) as [r|]; try constructor.
    destruct (String.eqb _ _); constructor; [| constructor].
    eexists. split; [reflexivity | apply bookingRow_status].
  - intros u r -> -> Hne. apply String.eqb_neq in Hne. now rewrite Hne.
Qed.

(** C5. When the signed-in user is the owner of the loaded resource,
    the submission ends with the error notification: no request is
    issued (so no booking is inserted) and the state is unchanged. *)
Theorem handleBooking_owner_blocked (backend : request -> response unit)
    (u : Auth.User) (r : Resource) (st : State) :
  resource st = Some r -> owner_id r = Auth.id u ->
  let o := run backend (handleBooking (Some u) st) st in
  requests o = []
  /\ events o = [Toast "Error" "You cannot book your own resource" true]
  /\ final o = st.
Proof.
  intros Hr Ho. unfold handleBooking. rewrite Hr.
  apply String.eqb_eq in Ho. rewrite Ho. cbn. auto.
Qed.

End BookingSubmit.

(** ** Resource creation *)

Section Creation.
Import Js Client AddResource.
Context `{Runtime}.

Lemma resourceRow_lookup (u : Auth.User) (st : State) (k : string) :
  resourceRow u st !! k =
    if String.eqb k "is_available" then Some (VBool true)
    else if String.eqb k "owner_id" then Some (VString (Auth.id u))
    else if String.eqb k "price"
      then Some (VNumber (parseFloat (property (formData st) "price")))
    else VString <$> (formData st !! k).
Proof.
  unfold resourceRow, extend. cbn [fold_left fst snd].
  destruct (String.eqb_spec k "is_available") as [-> | ?].
  { apply lookup_insert_eq. }
  rewrite lookup_insert_ne by congruence.
  destruct (String.eqb_spec k "owner_id") as [-> | ?].
  { apply lookup_insert_eq. }
  rewrite lookup_insert_ne by congruence.
  destruct (String.eqb_spec k "price") as [-> | ?].
  { apply lookup_insert_eq. }
  rewrite lookup_insert_ne by congruence.
  apply lookup_fmap.
Qed.


End Creation.

(** ** Resource listing: the client-side filter *)

Section ListingFilter.
Import Js Client Resources.

Lemma prefix_spec (t s : string) :
  String.prefix t s = true <-> exists suf, s = t +:+ suf.
Proof.
  revert s. induction t as [| a t IH]; intros s.
  - split; [intros _; now exists s | intros _; now destruct s].
  - destruct s as [| b s]; cbn.
    + split; [discriminate | intros [suf Hs]; discriminate].
    + destruct (ascii_dec a b) as [-> | Hab].
      * rewrite IH. split; intros [suf Hs]; exists suf; [now rewrite Hs | now injection Hs].
      * split; [discriminate | intros [suf Hs]; injection Hs as Hb _; congruence].
Qed.

Lemma includes_spec (s t : string) : includes s t = true <-> occurs_in t s.
Proof.
  unfold occurs_in. induction s as [| c s IH]; cbn [includes].
  - rewrite orb_false_r, prefix_spec. split.
    + intros [suf Hs]. now exists "", suf.
    + intros [pre [suf Hs]]. destruct pre; [now exists suf | discriminate].
  - rewrite orb_true_iff, prefix_spec, IH. split.
    + intros [[suf Hs] | [pre [suf Hs]]].
      * now exists "", suf.
      * exists (String c pre), suf. cbn. now rewrite Hs.
    + intros [pre [suf Hs]]. destruct pre as [| c' pre].
      * left. now exists suf.
      * right. cbn in Hs. injection Hs as _ Hs. now exists pre, suf.
Qed.

Context `{Runtime}.

(** C6. A resource is in the filtered listing exactly when it was
    fetched, the lower-cased search term occurs in its lower-cased
    title, description or location, and no category is selected or its
    category is the selected one. *)
Theorem filteredResources_spec (st : State) (r : Resource) :
  In r (filteredResources st) <->
  In r (resources st)
  /\ (occurs_in (toLowerCase (searchTerm st)) (toLowerCase (title r))
      \/ (exists d, description r = Some d
            /\ occurs_in (toLowerCase (searchTerm st)) (toLowerCase d))
      \/ occurs_in (toLowerCase (searchTerm st)) (toLowerCase (location r)))
  /\ (selectedCategory st = "" \/ category r = selectedCategory st).
Proof.
  unfold filteredResources, matchesSearch, matchesCategory.
  rewrite List.filter_In, andb_true_iff, !orb_true_iff, !includes_spec.
  rewrite negb_true_iff, truthy_false, String.eqb_eq.
  assert (Hd : match description r with
               | Some d => includes (toLowerCase d) (toLowerCase (searchTerm st))
               | None => false
               end = true <->
               exists d, description r = Some d
                 /\ occurs_in (toLowerCase (searchTerm st)) (toLowerCase d)).
  { destruct (description r) as [d |].
    - rewrite includes_spec. split; [intros Ho; now exists d |].
      intros [d' [[= <-] Ho]]. exact Ho.
    - split; [discriminate | intros [d' [[=] _]]]. }
  rewrite Hd. tauto.
Qed.

End ListingFilter.

(** ** Resource listing: what is fetched *)

Section ListingFetch.
Import Js Client Resources.

Lemma insert_by_In {A : Type} (leb : A -> A -> bool) (x y : A) (l : list A) :
  In y (insert_by leb x l) <-> y = x \/ In y l.
Proof.
  induction l as [| z l IH]; cbn.
  - intuition congruence.
  - destruct (leb x z); cbn; [| rewrite IH]; intuition congruence.
Qed.

Lemma sort_by_In {A : Type} (leb : A -> A -> bool) (y : A) (l : list A) :
  In y (sort_by leb l) <-> In y l.
Proof.
  induction l as [| x l IH]; cbn; [tauto |].
  rewrite insert_by_In, IH. intuition congruence.
Qed.

Section Sorted.
Context {A : Type} (leb : A -> A -> bool) (R : A -> A -> Prop).
Hypothesis leb_true : forall a b, leb a b = true -> R a b.
Hypothesis leb_false : forall a b, leb a b = false -> R b a.
Hypothesis R_trans : forall a b c, R a b -> R b c -> R a c.

Lemma insert_by_sorted (x : A) (l : list A) :
  StronglySorted R l -> StronglySorted R (insert_by leb x l).
Proof.
  induction 1 as [| y l Hl IH Hy]; cbn.
  - repeat constructor.
  - destruct (leb x y) eqn:Hxy.
    + constructor; [now constructor |].
      constructor; [now apply leb_true |].
      eapply List.Forall_impl; [| exact Hy]. intros z. apply R_trans. now apply leb_true.
    + constructor; [exact IH |].
      apply List.Forall_forall. intros z Hz. apply insert_by_In in Hz as [-> | Hz].
      * now apply leb_false.
      * rewrite List.Forall_forall in Hy. now apply Hy.
Qed.

Lemma sort_by_sorted (l : list A) : StronglySorted R (sort_by leb l).
Proof.
  induction l as [| x l IH]; cbn; [constructor | now apply insert_by_sorted].
Qed.

Lemma filter_sorted (f : A -> bool) (l : list A) :
  StronglySorted R l -> StronglySorted R (List.filter f l).
Proof.
  induction 1 as [| y l Hl IH Hy]; cbn; [constructor |].
  destruct (f y); [| exact IH]. constructor; [exact IH |].
  apply List.Forall_forall. intros z Hz. apply List.filter_In in Hz as [Hz _].
  rewrite List.Forall_forall in Hy. now apply Hy.
Qed.

End Sorted.

Lemma passes_available (r : Resource) :
  passes [("is_available", VBool true)] r = true <-> available r.
Proof.
  unfold passes, available. cbn.
  destruct (is_available r) as [[|] |]; cbn; intuition congruence.
Qed.

Lemma run_select_fetchQuery (rows : list Resource) :
  run_select fetchQuery rows =
    sort_by (fun a b => created_at b <=? created_at a)
      (List.filter (passes [("is_available", VBool true)]) rows).
Proof. reflexivity. Qed.

Lemma fetched_In (rows : list Resource) (r : Resource) :
  In r (run_select fetchQuery rows) <-> In r rows /\ available r.
Proof.
  now rewrite run_select_fetchQuery, sort_by_In, List.filter_In, passes_available.
Qed.

Lemma fetched_newest_first (rows : list Resource) :
  newest_first (run_select fetchQuery rows).
Proof.
  rewrite run_select_fetchQuery. apply sort_by_sorted; intros; lia.
Qed.

Context `{Runtime}.

(** C7. The listing issues one request, the select of the resources
    with [is_available = true] ordered by [created_at] descending; the
    resources it then holds, and those it displays after filtering, all
    have the availability flag true and are ordered newest first.  When
    the service answers, the listing holds exactly the available rows. *)
Theorem listing_only_available (up : bool) (rows : list Resource) (term cat : string) :
  let st0 := setSelectedCategory cat (setSearchTerm term initial) in
  let o := run (service up rows) fetchResources st0 in
  requests o = [fetchQuery]
  /\ Forall available (resources (final o))
  /\ newest_first (resources (final o))
  /\ Forall available (filteredResources (final o))
  /\ newest_first (filteredResources (final o))
  /\ (up = true ->
      forall r, In r (resources (final o)) <-> In r rows /\ available r).
Proof.
  intros st0 o.
  assert (Hres : resources (final o) = if up then run_select fetchQuery rows else []).
  { unfold o. now destruct up. }
  assert (Hav : Forall available (resources (final o))).
  { rewrite Hres. destruct up; [| constructor].
    apply List.Forall_forall. intros r Hr. now apply fetched_In in Hr. }
  assert (Hso : newest_first (resources (final o))).
  { rewrite Hres. destruct up; [apply fetched_newest_first | constructor]. }
  split; [unfold o; now destruct up |].
  split; [exact Hav |]. split; [exact Hso |]. split; [| split].
  - apply List.Forall_forall. intros r Hr. apply List.filter_In in Hr as [Hr _].
    rewrite List.Forall_forall in Hav. now apply Hav.
  - now apply filter_sorted.
  - intros Hup r. rewrite Hres, Hup. apply fetched_In.
Qed.

End ListingFetch.

(** ** Dashboard *)

Section DashboardFacts.
Import Js Client Dashboard.

Lemma filter_all {A : Type} (f : A -> bool) (l : list A) :
  (forall y, In y l -> f y = true) -> List.filter f l = l.
Proof.
  induction l as [| a l IH]; cbn; intros Hall; [reflexivity |].
  rewrite (Hall a) by now left. f_equal. apply IH. intros y Hy. apply Hall. now right.
Qed.

Lemma lookup_map {A B : Type} (f : A -> B) (l : list A) (i : nat) (x : A) :
  l !! i = Some x -> List.map f l !! i = Some (f x).
Proof.
  revert i. induction l as [| a l IH]; intros [| i]; cbn; try discriminate.
  - now intros [= ->].
  - apply IH.
Qed.

(** Filtering out a key that occurs once removes exactly that entry. *)
Lemma filter_remove_unique {A : Type} (key : A -> string) (r : string)
    (l : list A) (x : A) :
  List.NoDup (List.map key l) -> In x l -> key x = r ->
  exists l1 l2, l = l1 ++ x :: l2
    /\ List.filter (fun y => negb (String.eqb (key y) r)) l = l1 ++ l2.
Proof.
  induction l as [| a l IH]; intros Hnd Hin Hk; [contradiction |].
  cbn in Hnd. apply List.NoDup_cons_iff in Hnd as [Hna Hnd].
  destruct Hin as [-> | Hin].
  - exists [], l. split; [reflexivity |]. cbn.
    rewrite Hk, String.eqb_refl. cbn. apply filter_all.
    intros y Hy. apply negb_true_iff, String.eqb_neq. intros Hy'.
    apply Hna. rewrite Hk, <- Hy'. now apply List.in_map.
  - destruct (IH Hnd Hin Hk) as [l1 [l2 [Hl Hf]]].
    exists (a :: l1), l2. split; [cbn; now rewrite Hl |]. cbn.
    destruct (String.eqb_spec (key a) r) as [Ha | Ha]; cbn; [| now rewrite Hf].
    exfalso. apply Hna. rewrite Ha, <- Hk. now apply List.in_map.
Qed.

Lemma requestButtons_pending (booking : Booking.t) :
  Booking.status booking = "pending" ->
  requestButtons booking =
    [ ("Accept", updateBookingStatus (Booking.id booking) "confirmed");
      ("Reject", updateBookingStatus (Booking.id booking) "rejected") ].
Proof. intros Hs. unfold requestButtons. now rewrite Hs. Qed.

Lemma requestButtons_settled (booking : Booking.t) :
  Booking.status booking <> "pending" -> requestButtons booking = [].
Proof.
  intros Hs. unfold requestButtons. apply String.eqb_neq in Hs. now rewrite Hs.
Qed.

Lemma click_pending (label : string) (booking : Booking.t) (p : prog State unit) :
  click label booking = Some p -> Booking.status booking = "pending".
Proof.
  unfold click. destruct (String.eqb_spec (Booking.status booking) "pending") as [Hs | Hs].
  - intros _. exact Hs.
  - now rewrite (requestButtons_settled booking Hs).
Qed.

Lemma updateBookingStatus_ok (backend : request -> response unit)
    (b s : string) (st : State) :
  error (backend (updateRequest b s)) = None ->
  run backend (updateBookingStatus b s) st =
    {| final :=
         setResourceBookings
           (List.map (fun booking =>
              if String.eqb (Booking.id booking) b
              then Booking.with_status booking s else booking)) st;
       events := [Toast "Success" ("Booking " +:+ s +:+ " successfully") false];
       requests := [updateRequest b s] |}.
Proof. intros He. unfold updateBookingStatus. cbn [run]. now rewrite He. Qed.

Lemma deleteResource_ok (backend : request -> response unit)
    (r : string) (st : State) :
  error (backend (deleteRequest r)) = None ->
  run backend (deleteResource r) st =
    {| final :=
         setMyResources
           (List.filter (fun x => negb (String.eqb (Resource.id x) r))) st;
       events := [Toast "Success" "Resource deleted successfully" false];
       requests := [deleteRequest r] |}.
Proof. intros He. unfold deleteResource. cbn [run]. now rewrite He. Qed.

Lemma deleteRequest_eq (r : string) :
  deleteRequest r = Delete "resources" [("id", VString r)].
Proof. reflexivity. Qed.

Lemma updateRequest_eq (b s : string) :
  updateRequest b s =
    Update "bookings" {[ "status" := VString s ]} [("id", VString b)].
Proof. reflexivity. Qed.

(** The booking at a position of the requests list after a patch for
    id [b] with status [s]: every member but the status is as before. *)
Lemma patched_members (b s : string) (l : list Booking.t) (i : nat) (bk : Booking.t) :
  l !! i = Some bk ->
  exists bk',
    List.map (fun booking =>
                if String.eqb (Booking.id booking) b
                then Booking.with_status booking s else booking) l !! i = Some bk'
    /\ Booking.id bk' = Booking.id bk
    /\ Booking.start_time bk' = Booking.start_time bk
    /\ Booking.end_time bk' = Booking.end_time bk
    /\ Booking.total_price bk' = Booking.total_price bk
    /\ Booking.resource_id bk' = Booking.resource_id bk
    /\ Booking.resources bk' = Booking.resources bk
    /\ Booking.status bk' =
         if String.eqb (Booking.id bk) b then s else Booking.status bk.
Proof.
  intros Hi. eexists. split.
  - exact (lookup_map
             (fun booking => if String.eqb (Booking.id booking) b
                             then Booking.with_status booking s else booking)
             _ i bk Hi).
  - cbv beta. destruct (String.eqb (Booking.id bk) b); repeat split; reflexivity.
Qed.

(** C9. After a delete of id [r] that the backend accepts, the owned
    resources are the previous ones without the entries of id [r], in
    the same order (with unique ids: the previous list with exactly
    that entry taken out), and the two booking lists are as they were.
    After an update of booking [b] to status [s] that the backend
    accepts, the requests list has the same bookings at the same
    positions, each with every member as before except that the status
    of those of id [b] is [s]; the bookings made and the owned
    resources are as they were. *)
Theorem dashboard_mutations_frame (backend : request -> response unit) (st : State) :
  (forall r, error (backend (Delete "resources" [("id", VString r)])) = None ->
     let o := run backend (deleteResource r) st in
     requests o = [Delete "resources" [("id", VString r)]]
     /\ myResources (final o) =
          List.filter (fun x => negb (String.eqb (Resource.id x) r)) (myResources st)
     /\ (forall x, In x (myResources (final o)) <->
                   In x (myResources st) /\ Resource.id x <> r)
     /\ (List.NoDup (List.map Resource.id (myResources st)) ->
         forall x, In x (myResources st) -> Resource.id x = r ->
         exists l1 l2, myResources st = l1 ++ x :: l2
                       /\ myResources (final o) = l1 ++ l2)
     /\ ((forall x, In x (myResources st) -> Resource.id x <> r) ->
         myResources (final o) = myResources st)
     /\ myBookings (final o) = myBookings st
     /\ resourceBookings (final o) = resourceBookings st
     /\ loading (final o) = loading st)
  /\ (forall b s,
        error (backend (Update "bookings" {[ "status" := VString s ]}
                          [("id", VString b)])) = None ->
        let o := run backend (updateBookingStatus b s) st in
        requests o = [Update "bookings" {[ "status" := VString s ]}
                        [("id", VString b)]]
        /\ myResources (final o) = myResources st
        /\ myBookings (final o) = myBookings st
        /\ loading (final o) = loading st
        /\ length (resourceBookings (final o)) = length (resourceBookings st)
        /\ (forall i bk, resourceBookings st !! i = Some bk ->
              exists bk',
                resourceBookings (final o) !! i = Some bk'
                /\ Booking.id bk' = Booking.id bk
                /\ Booking.start_time bk' = Booking.start_time bk
                /\ Booking.end_time bk' = Booking.end_time bk
                /\ Booking.total_price bk' = Booking.total_price bk
                /\ Booking.resource_id bk' = Booking.resource_id bk
                /\ Booking.resources bk' = Booking.resources bk
                /\ Booking.status bk' =
                     if String.eqb (Booking.id bk) b then s
                     else Booking.status bk)).
Proof.
  split.
  - intros r He o. rewrite <- deleteRequest_eq in He.
    unfold o. rewrite (deleteResource_ok backend r st He).
    cbn [final requests setMyResources myResources myBookings resourceBookings loading].
    split; [reflexivity |]. split; [reflexivity |].
    split; [| split; [| split; [| repeat split]]].
    + intros x. rewrite List.filter_In, negb_true_iff, String.eqb_neq. tauto.
    + intros Hnd x Hin Hx. now apply filter_remove_unique.
    + intros Hall. apply filter_all. intros y Hy.
      apply negb_true_iff, String.eqb_neq. now apply Hall.
  - intros b s He o. rewrite <- updateRequest_eq in He.
    unfold o. rewrite (updateBookingStatus_ok backend b s st He).
    cbn [final requests setResourceBookings myResources myBookings resourceBookings
         loading].
    split; [reflexivity |]. split; [reflexivity |]. split; [reflexivity |].
    split; [reflexivity |]. split.
    + apply List.length_map.
    + intros i bk Hi. now apply patched_members.
Qed.

(** C3. In the requests tab the buttons Accept and Reject are rendered
    for a booking exactly while its status is "pending".  For a pending
    booking of the requests list, Accept asks for an update of the
    bookings of its id to status "confirmed" and Reject for one to
    status "rejected".  With a backend that accepts the update, the
    bookings of that id carry the new status and no button is rendered
    for them any more.  The database of the migration accepts the
    first: the booking is confirmed, nothing else changes, the buttons
    are gone.  It refuses the second, "rejected" not being listed in the
    check: the dashboard is left as it was, the booking still pending
    and its buttons still rendered. *)
Theorem reject_refused_by_check (st : State) (booking : Booking.t) :
  (requestButtons booking <> [] <-> Booking.status booking = "pending")
  /\ (Booking.status booking = "pending" ->
      In booking (resourceBookings st) ->
      let accept := Update "bookings" {[ "status" := VString "confirmed" ]}
                      [("id", VString (Booking.id booking))] in
      let reject := Update "bookings" {[ "status" := VString "rejected" ]}
                      [("id", VString (Booking.id booking))] in
      List.map fst (requestButtons booking) = ["Accept"; "Reject"]
      /\ exists pA pR,
           click "Accept" booking = Some pA
           /\ click "Reject" booking = Some pR
           /\ (forall backend : request -> response unit,
                 requests (run backend pA st) = [accept]
                 /\ requests (run backend pR st) = [reject])
           /\ (forall (backend : request -> response unit) q target p,
                 (q = accept /\ target = "confirmed" /\ p = pA)
                 \/ (q = reject /\ target = "rejected" /\ p = pR) ->
                 error (backend q) = None ->
                 forall i bk, resourceBookings st !! i = Some bk ->
                 exists bk',
                   resourceBookings (final (run backend p st)) !! i = Some bk'
                   /\ Booking.id bk' = Booking.id bk
                   /\ Booking.start_time bk' = Booking.start_time bk
                   /\ Booking.end_time bk' = Booking.end_time bk
                   /\ Booking.total_price bk' = Booking.total_price bk
                   /\ Booking.resource_id bk' = Booking.resource_id bk
                   /\ Booking.resources bk' = Booking.resources bk
                   /\ Booking.status bk' =
                        (if String.eqb (Booking.id bk) (Booking.id booking)
                         then target else Booking.status bk)
                   /\ (Booking.id bk = Booking.id booking ->
                       requestButtons bk' = []))
           /\ error (Policies.checked accept) = None
           /\ error (Policies.checked reject) = Some "23514"
           /\ final (run Policies.checked pR st) = st
           /\ events (run Policies.checked pR st) =
                [ConsoleError "Error updating booking:";
                 Toast "Error" "Failed to update booking" true]
           /\ In booking (resourceBookings (final (run Policies.checked pR st)))
           /\ List.map fst (requestButtons booking) = ["Accept"; "Reject"]).
Proof.
  split.
  - destruct (String.eqb_spec (Booking.status booking) "pending") as [Hs | Hs].
    + rewrite (requestButtons_pending booking Hs). split; [intros _; exact Hs | discriminate].
    + rewrite (requestButtons_settled booking Hs). tauto.
  - intros Hs Hin accept reject.
    split; [now rewrite (requestButtons_pending booking Hs) |].
    exists (updateBookingStatus (Booking.id booking) "confirmed"),
           (updateBookingStatus (Booking.id booking) "rejected").
    split; [unfold click; now rewrite (requestButtons_pending booking Hs) |].
    split; [unfold click; now rewrite (requestButtons_pending booking Hs) |].
    split; [| split; [| split; [reflexivity | split; [reflexivity |]]]].
    + intros backend. unfold updateBookingStatus. cbn [run requests].
      split; destruct (error _); reflexivity.
    + intros backend q target p Hq He i bk Hi.
      assert (Hp : p = updateBookingStatus (Booking.id booking) target
                   /\ q = updateRequest (Booking.id booking) target
                   /\ target <> "pending").
      { destruct Hq as [(Hq & Ht & Hp) | (Hq & Ht & Hp)]; subst q target p;
          (split; [reflexivity | split; [reflexivity | discriminate]]). }
      destruct Hp as (Hp & Hq' & Ht). subst p q.
      rewrite (updateBookingStatus_ok backend _ _ st He).
      cbn [final setResourceBookings resourceBookings].
      destruct (patched_members (Booking.id booking) target _ i bk Hi)
        as (bk' & Hl & H1 & H2 & H3 & H4 & H5 & H6 & H7).
      exists bk'. do 8 (split; [assumption |]).
      intros Hid. apply requestButtons_settled. rewrite H7.
      apply String.eqb_eq in Hid. now rewrite Hid.
    + assert (Hr : run Policies.checked
                     (updateBookingStatus (Booking.id booking) "rejected") st =
                   {| final := st;
                      events := [ConsoleError "Error updating booking:";
                                 Toast "Error" "Failed to update booking" true];
                      requests := [updateRequest (Booking.id booking) "rejected"] |})
        by reflexivity.
      rewrite Hr. cbn [final events].
      split; [reflexivity |]. split; [reflexivity |]. split; [exact Hin |].
      now rewrite (requestButtons_pending booking Hs).
Qed.

(** C2. The Reject button of a pending booking asks the backend to
    set [status] to "rejected", a value the check constraint of
    [bookings.status] does not list; the statuses written at creation
    and by Accept are listed.  When the backend refuses the update the
    dashboard keeps its state, the booking still pending. *)
Theorem reject_status_not_in_check (backend : request -> response unit)
    (st : State) (booking : Booking.t) :
  Booking.status booking = "pending" ->
  exists p patch,
    click "Reject" booking = Some p
    /\ requests (run backend p st) =
         [Update "bookings" patch [("id", VString (Booking.id booking))]]
    /\ patch !! "status" = Some (VString "rejected")
    /\ Schema.bookings_status_check "rejected" = false
    /\ Schema.bookings_status_check "confirmed" = true
    /\ Schema.bookings_status_check "pending" = true
    /\ (error (backend (updateRequest (Booking.id booking) "rejected")) <> None ->
        final (run backend p st) = st
        /\ events (run backend p st) =
             [ConsoleError "Error updating booking:";
              Toast "Error" "Failed to update booking" true]).
Proof.
  intros Hs.
  exists (updateBookingStatus (Booking.id booking) "rejected"),
         (object [("status", VString "rejected")]).
  split; [unfold click; now rewrite (requestButtons_pending booking Hs) |].
  split; [| split; [| repeat split]].
  - unfold updateBookingStatus. cbn [run requests].
    destruct (error _); reflexivity.
  - apply lookup_insert_eq.
  - unfold updateBookingStatus. cbn [run].
    destruct (error _); [reflexivity | contradiction].
  - unfold updateBookingStatus. cbn [run].
    destruct (error _); [reflexivity | contradiction].
Qed.

End DashboardFacts.

(** ** The properties on the sample data *)

Section Instances.
Import Js Client.



Lemma calculateTotalPrice_absent_witness :
  BookResource.endDate Sample.form_no_end = ""
  /\ BookResource.calculateTotalPrice (H := Reference.reference_runtime)
       Sample.form_no_end = Num 0.
Proof.
  split; [reflexivity |].
  apply (proj1 (@calculateTotalPrice_absent Reference.reference_runtime
                  Sample.form_no_end)).
  right. left. reflexivity.
Defined.

Lemma handleBooking_inserts_pending_witness :
  requests (run ok_backend
              (BookResource.handleBooking (H := Reference.reference_runtime)
                 (Some Sample.renter) Sample.form_25h) Sample.form_25h) =
    [Insert "bookings"
       (BookResource.bookingRow (H := Reference.reference_runtime)
          Sample.renter Sample.drill Sample.form_25h)].
Proof.
  apply (proj2 (@handleBooking_inserts_pending Reference.reference_runtime
                  ok_backend (Some Sample.renter) Sample.form_25h)).
  - reflexivity.
  - reflexivity.
  - discriminate.
Defined.

Lemma handleBooking_owner_blocked_witness :
  requests (run ok_backend
              (BookResource.handleBooking (H := Reference.reference_runtime)
                 (Some Sample.owner) Sample.form_25h) Sample.form_25h) = [].
Proof.
  apply (@handleBooking_owner_blocked Reference.reference_runtime
           ok_backend Sample.owner Sample.drill Sample.form_25h).
  - reflexivity.
  - reflexivity.
Defined.

Lemma listing_only_available_witness :
  In (Sample.row "r3" "Tent" (Some "Sleeps four") "Equipment" "Pune" (Some true) 300)
     (Resources.resources
        (final (run (Resources.service true Sample.table)
                  Resources.fetchResources Resources.initial))).
Proof.
  apply (proj2 (proj2 (proj2 (proj2 (proj2
    (@listing_only_available Reference.reference_runtime true Sample.table "" "")))))
    eq_refl).
  split.
  - right. right. left. reflexivity.
  - reflexivity.
Defined.


Lemma dashboard_mutations_frame_witness :
  Dashboard.myResources
    (final (run ok_backend (Dashboard.deleteResource "r1") Sample.dashboard))
  = [Sample.owned "r3"]
  /\ Dashboard.myBookings
       (final (run ok_backend (Dashboard.updateBookingStatus "b1" "confirmed")
                 Sample.dashboard)) =
     Dashboard.myBookings Sample.dashboard.
Proof.
  split.
  - pose proof (proj1 (dashboard_mutations_frame ok_backend Sample.dashboard)
                  "r1" eq_refl) as Hd.
    cbv zeta in Hd. destruct Hd as (_ & Hf & _). rewrite Hf. reflexivity.
  - apply (proj2 (dashboard_mutations_frame ok_backend Sample.dashboard)
             "b1" "confirmed").
    reflexivity.
Defined.

Lemma reject_refused_by_check_witness :
  exists pR,
    Dashboard.click "Reject" (Sample.request "b1" "pending") = Some pR
    /\ final (run Policies.checked pR Sample.dashboard) = Sample.dashboard
    /\ In (Sample.request "b1" "pending")
          (Dashboard.resourceBookings (final (run Policies.checked pR Sample.dashboard))).
Proof.
  pose proof (proj2 (reject_refused_by_check Sample.dashboard
                       (Sample.request "b1" "pending"))) as Hc.
  cbv zeta in Hc.
  destruct Hc as (_ & pA & pR & _ & Hr & _ & _ & _ & _ & Hf & _ & Hi & _).
  - reflexivity.
  - left. reflexivity.
  - exists pR. split; [exact Hr |]. split; [exact Hf | exact Hi].
Defined.

Lemma reject_status_not_in_check_witness :
  exists p patch,
    Dashboard.click "Reject" (Sample.request "b1" "pending") = Some p
    /\ requests (run ok_backend p Sample.dashboard) =
         [Update "bookings" patch [("id", VString "b1")]]
    /\ patch !! "status" = Some (VString "rejected")
    /\ Schema.bookings_status_check "rejected" = false
    /\ Schema.bookings_status_check "confirmed" = true
    /\ Schema.bookings_status_check "pending" = true.
Proof.
  destruct (reject_status_not_in_check ok_backend Sample.dashboard
              (Sample.request "b1" "pending") eq_refl)
    as [p [patch [Hc [Hq [Hp [Hr [Ha [Hn _]]]]]]]].
  exists p, patch. repeat split; assumption.
Defined.

(** Price 5 a day, three whole days. *)
Example total_three_days :
  BookResource.calculateTotalPrice (H := Reference.reference_runtime)
    {| BookResource.resource :=
         Some {| BookResource.id := "r1"; BookResource.title := "Tent";
                 BookResource.description := ""; BookResource.category := "Equipment";
                 BookResource.price := Num 5; BookResource.location := "Pune";
                 BookResource.image_url := None;
                 BookResource.availability_start := "2025-01-01";
                 BookResource.availability_end := "2025-01-10";
                 BookResource.owner_id := "u-owner" |};
       BookResource.loading := false; BookResource.booking := false;
       BookResource.startDate := "2025-01-02T00:00";
       BookResource.endDate := "2025-01-05T00:00";
       BookResource.paymentMethod := "cash" |} = Num 15.
Proof. vm_compute. reflexivity. Qed.

(** One minute past a whole day is charged as two days. *)
Example total_rounds_up :
  BookResource.calculateTotalPrice (H := Reference.reference_runtime)
    (BookResource.setEndDate "2025-01-02T10:01" Sample.form_25h) = Num 20.
Proof. vm_compute. reflexivity. Qed.

(** The select of the listing on the sample table: the available rows,
    the most recent first; the null flag of r4 does not pass the filter. *)
Example fetched_sample :
  List.map Resources.id (Resources.run_select Resources.fetchQuery Sample.table)
  = ["r3"; "r1"].
Proof. vm_compute. reflexivity. Qed.

(** Searching "PUNE" within Tools on the whole sample table. *)
Example filtered_sample :
  List.map Resources.id
    (Resources.filteredResources (H := Reference.reference_runtime)
       {| Resources.resources := Sample.table; Resources.loading := false;
          Resources.searchTerm := "PUNE"; Resources.selectedCategory := "Tools" |})
  = ["r1"].
Proof. vm_compute. reflexivity. Qed.

(** The row sent for the sample form: the parsed price replaces the
    text of the price field. *)
Example submitted_price :
  AddResource.resourceRow (H := Reference.reference_runtime)
    Sample.renter Sample.form !! "price" = Some (VNumber (Num (25 # 2))).
Proof. vm_compute. reflexivity. Qed.

End Instances.

(** * Further properties of the handlers *)

(** ** Booking form: how the total depends on the dates *)

Section BookingPriceMore.
Import Js Client BookResource.
Context `{Runtime}.





(** When one of the inputs holds a string the runtime reads as an
    invalid date, the total is NaN, and NaN is what is displayed. *)
Theorem calculateTotalPrice_invalid_date (st : State) (r : Resource) :
  resource st = Some r ->
  startDate st <> "" -> endDate st <> "" ->
  Date_getTime (startDate st) = NaN \/ Date_getTime (endDate st) = NaN ->
  calculateTotalPrice st = NaN /\ shownTotal st = Some NaN.
Proof.
  intros Hr Hs He Hn.
  assert (Hc : calculateTotalPrice st = NaN).
  { unfold calculateTotalPrice. apply truthy_true in Hs, He.
    rewrite Hs, He, Hr. cbn [negb orb]. rewrite msPerDay_product.
    destruct Hn as [Hn | Hn]; rewrite Hn;
      [destruct (Date_getTime (endDate st)) as [| [] |]
      | destruct (Date_getTime (startDate st)) as [| [] |]]; reflexivity. }
  split; [exact Hc |].
  unfold shownTotal. apply truthy_true in Hs, He. now rewrite Hs, He, Hc.
Qed.

End BookingPriceMore.

(** ** Booking form: the submitted row and the end of a submission *)

Section BookingSubmitMore.
Import Js Client BookResource.
Context `{Runtime}.

Lemma bookingRow_members (u : Auth.User) (r : Resource) (st : State) :
  let row := bookingRow u r st in
  row !! "resource_id" = Some (VString (id r))
  /\ row !! "renter_id" = Some (VString (Auth.id u))
  /\ row !! "owner_id" = Some (VString (owner_id r))
  /\ row !! "start_time" = Some (VString (startDate st))
  /\ row !! "end_time" = Some (VString (endDate st))
  /\ row !! "payment_method" = Some (VString (paymentMethod st))
  /\ row !! "total_price" = Some (VNumber (calculateTotalPrice st)).
Proof.
  unfold bookingRow, object, extend. cbn [fold_left fst snd].
  repeat split; by simplify_map_eq.
Qed.

Lemma bookingRow_dom (u : Auth.User) (r : Resource) (st : State) :
  dom (bookingRow u r st) =
    list_to_set ["resource_id"; "renter_id"; "owner_id"; "start_time";
                 "end_time"; "payment_method"; "total_price"; "status"].
Proof.
  unfold bookingRow, object, extend. cbn [fold_left fst snd].
  rewrite !dom_insert_L, dom_empty_L. cbn [list_to_set foldr]. set_solver.
Qed.

(** Every insert a submission issues names the signed-in user as renter
    and the owner of the loaded resource as owner, and the two differ;
    the remaining members are the resource id, the form inputs as they
    stand, and the computed total. *)
Theorem handleBooking_row_parties (backend : request -> response unit)
    (user : option Auth.User) (st : State) :
  Forall (fun q => exists row u r,
            q = Insert "bookings" row
            /\ user = Some u /\ resource st = Some r
            /\ row !! "renter_id" = Some (VString (Auth.id u))
            /\ row !! "owner_id" = Some (VString (owner_id r))
            /\ owner_id r <> Auth.id u
            /\ row !! "resource_id" = Some (VString (id r))
            /\ row !! "start_time" = Some (VString (startDate st))
            /\ row !! "end_time" = Some (VString (endDate st))
            /\ row !! "payment_method" = Some (VString (paymentMethod st))
            /\ row !! "total_price" = Some (VNumber (calculateTotalPrice st)))
         (requests (run backend (handleBooking user st) st)).
Proof.
  rewrite handleBooking_requests.
  destruct user as [u |], (resource st) as [r |] eqn:Hr; try constructor.
  destruct (String.eqb_spec (owner_id r) (Auth.id u)) as [Ho | Ho]; constructor;
    [| constructor].
  destruct (bookingRow_members u r st) as (H1 & H2 & H3 & H4 & H5 & H6 & H7).
  exists (bookingRow u r st), u, r. repeat split; assumption.
Qed.

(** Once the insert is issued, the [booking] flag is back to false
    whatever the backend answers and nothing else of the state has
    changed; the page moves to the dashboard exactly when the backend
    reported no error. *)
Theorem handleBooking_settles (backend : request -> response unit)
    (u : Auth.User) (r : Resource) (st : State) :
  resource st = Some r -> owner_id r <> Auth.id u ->
  let o := run backend (handleBooking (Some u) st) st in
  final o = setBooking false st
  /\ (error (backend (Insert "bookings" (bookingRow u r st))) = None ->
      events o = [Toast "Success!" "Booking request submitted successfully" false;
                  Navigate "/dashboard"])
  /\ (error (backend (Insert "bookings" (bookingRow u r st))) <> None ->
      events o = [ConsoleError "Error creating booking:";
                  Toast "Error" "Failed to create booking" true])
  /\ (In (Navigate "/dashboard") (events o) <->
      error (backend (Insert "bookings" (bookingRow u r st))) = None).
Proof.
  intros Hr Ho o. unfold o, handleBooking. rewrite Hr.
  apply String.eqb_neq in Ho. rewrite Ho. cbn [run final events].
  destruct (error (backend _)) as [e |]; cbn [run final events].
  - split; [reflexivity |]. split; [discriminate |]. split; [reflexivity |].
    split; [| discriminate]. cbn. intros [|[|]]; [discriminate | discriminate | contradiction].
  - split; [reflexivity |]. split; [reflexivity |]. split; [contradiction |].
    split; [reflexivity |]. intros _. cbn. auto.
Qed.

(** Without a signed-in user, or before the resource is loaded, a
    submission does nothing at all. *)
Theorem handleBooking_not_ready (backend : request -> response unit)
    (user : option Auth.User) (st : State) :
  user = None \/ resource st = None ->
  run backend (handleBooking user st) st =
    {| final := st; events := []; requests := [] |}.
Proof.
  intros [-> | Hr]; unfold handleBooking; [reflexivity |].
  rewrite Hr. now destruct user.
Qed.

(** A row submitted for a resource of non-negative price, with both
    dates read as instants, meets the constraints the migration puts on
    [bookings]: its status is listed, its renter is the session's user,
    every member is a column of the table, and its total passes
    [NOT NULL CHECK (total_price >= 0)] exactly when the binary64
    product is finite (an overflowing product is not). *)
Theorem bookingRow_meets_constraints (u : Auth.User) (r : Resource) (st : State)
    (p : Q) (s e : Z) :
  resource st = Some r -> price r = Num p -> (0 <= p)%Q ->
  startDate st <> "" -> endDate st <> "" ->
  Date_getTime (startDate st) = Num (inject_Z s) ->
  Date_getTime (endDate st) = Num (inject_Z e) ->
  Z.abs (e - s) < 2 ^ 53 ->
  let row := bookingRow u r st in
  Policies.status_ok row = true
  /\ (Policies.numeric_nonneg (row !! "total_price") = true <->
      exists t, calculateTotalPrice st = Num t)
  /\ Policies.bookings_insert (Auth.id u) row = true
  /\ dom row ⊆ list_to_set Policies.bookings_columns.
Proof.
  intros Hr Hp Hpos Hs He Ps Pe Hspan row.
  destruct (bookingRow_members u r st) as (_ & H2 & _ & _ & _ & _ & H7).
  split; [| split; [| split]].
  - unfold Policies.status_ok, row. now rewrite bookingRow_status.
  - unfold row. rewrite H7. cbn [Policies.numeric_nonneg]. split.
    + destruct (calculateTotalPrice st) as [| sg | t]; try discriminate.
      intros _. now exists t.
    + intros [t Ht]. rewrite Ht. apply Qle_bool_iff.
      rewrite (calculateTotalPrice_days st r s e), Hp in Ht by assumption.
      cbn [mul] in Ht. apply round64_nonneg in Ht; [exact Ht |].
      apply Qmult_le_0_compat; [| exact Hpos].
      change 0%Q with (inject_Z 0). rewrite <- Zle_Qle. lia.
  - unfold Policies.bookings_insert, row. rewrite H2. apply String.eqb_refl.
  - unfold row. rewrite bookingRow_dom. unfold Policies.bookings_columns.
    intros x. rewrite !elem_of_list_to_set, !elem_of_cons. tauto.
Qed.

End BookingSubmitMore.

(** ** Booking form: entering the page *)

Section BookingMount.
Import Js Client BookResource.

(** Entering the booking page: without a session the page goes to
    "/auth" and asks nothing; with one it asks for the resource of the
    route's id among the available ones.  A refusal leaves the resource
    as it was, notifies, and goes back to the listing; an answer is
    stored as the resource.  In both cases loading ends. *)
Theorem mount_outcome (backend : forall D, query D -> response D)
    (u : Auth.User) (i : string) (st : State) :
  Typed.run backend (mount None (Some i)) st =
    {| Typed.final := st; Typed.events := [Navigate "/auth"]; Typed.requests := [] |}
  /\ (i <> "" ->
      let o := Typed.run backend (mount (Some u) (Some i)) st in
      let res := backend _ (SelectSingle (resourceQuery i)) in
      Typed.requests o = [Typed.pack (SelectSingle (resourceQuery i))]
      /\ loading (Typed.final o) = false
      /\ (error res <> None ->
          resource (Typed.final o) = resource st
          /\ Typed.events o =
               [ConsoleError "Error fetching resource:";
                Toast "Error" "Resource not found or unavailable" true;
                Navigate "/resources"])
      /\ (error res = None ->
          resource (Typed.final o) = data res
          /\ Typed.events o = []
          /\ render (Typed.final o) =
               match data res with Some r => FormView r | None => NotFoundView end)).
Proof.
  split; [reflexivity |].
  intros Hi o res. unfold o, mount, fetchResource.
  apply truthy_true in Hi. rewrite Hi. cbn [Typed.run Typed.requests Typed.final Typed.events].
  fold res. destruct (error res) as [e |];
    cbn [Typed.run Typed.requests Typed.final Typed.events].
  - repeat split; try reflexivity; intros; congruence.
  - repeat split; try reflexivity; intros; congruence.
Qed.

(** With a session but no id in the route (or an empty one) nothing is
    asked and loading is never ended: a page that was loading keeps
    showing the loading view. *)
Theorem mount_missing_id (backend : forall D, query D -> response D)
    (u : Auth.User) (id : option string) (st : State) :
  id = None \/ id = Some "" ->
  Typed.run backend (mount (Some u) id) st =
    {| Typed.final := st; Typed.events := []; Typed.requests := [] |}
  /\ (loading st = true ->
      render (Typed.final (Typed.run backend (mount (Some u) id) st)) = LoadingView).
Proof.
  intros [-> | ->]; (split; [reflexivity |]); cbn; unfold render; now intros ->.
Qed.

End BookingMount.

(** ** Resource creation: the form and the submitted row *)

Section CreationMore.
Import Js Client AddResource.
Context `{Runtime}.

(** Whatever the backend answers, a submission leaves the form data as
    typed and ends with loading false; it goes to the dashboard exactly
    when no error was reported. *)
Theorem handleSubmit_settles (backend : request -> response unit)
    (u : Auth.User) (st : State) :
  let o := run backend (handleSubmit (Some u) st) st in
  let res := backend (Insert "resources" (resourceRow u st)) in
  final o = setLoading false st
  /\ formData (final o) = formData st
  /\ (error res = None ->
      events o = [Toast "Success!" "Resource added successfully" false;
                  Navigate "/dashboard"])
  /\ (error res <> None ->
      events o = [ConsoleError "Error adding resource:";
                  Toast "Error" "Failed to add resource" true]).
Proof.
  intros o res. unfold o, handleSubmit. cbn [run final events]. fold res.
  destruct (error res) as [e |]; cbn [run final events];
    repeat split; try reflexivity; intros; congruence.
Qed.

Lemma formData_change (name value : string) (st : State) (k : string) :
  formData (handleInputChange name value st) !! k =
    if String.eqb k name then Some value else formData st !! k.
Proof.
  unfold handleInputChange, extend. cbn [formData fold_left fst snd].
  destruct (String.eqb_spec k name) as [-> | Hk].
  - apply lookup_insert_eq.
  - apply lookup_insert_ne. congruence.
Qed.

(** Typing into the control named [name] changes the submitted row at
    [name] only: to the text typed, or for the price control to its
    parse; [owner_id] and [is_available] are never taken from the
    form, not even from a control of that name. *)
Theorem resourceRow_after_change (u : Auth.User) (st : State)
    (name value k : string) :
  resourceRow u (handleInputChange name value st) !! k =
    if String.eqb k "is_available" then Some (VBool true)
    else if String.eqb k "owner_id" then Some (VString (Auth.id u))
    else if String.eqb k name then
      (if String.eqb k "price" then Some (VNumber (parseFloat value))
       else Some (VString value))
    else resourceRow u st !! k.
Proof.
  rewrite !resourceRow_lookup.
  destruct (String.eqb k "is_available"); [reflexivity |].
  destruct (String.eqb k "owner_id"); [reflexivity |].
  unfold property. rewrite !formData_change.
  destruct (String.eqb_spec k "price") as [-> | Hp].
  - destruct (String.eqb_spec "price" name) as [<- | Hn].
    + reflexivity.
    + reflexivity.
  - destruct (String.eqb k name); reflexivity.
Qed.

Lemma typed_dom (changes : list (string * string)) (st : State) :
  Forall (fun c => In (fst c) fields) changes ->
  dom (formData st) = list_to_set fields ->
  dom (formData (typed changes st)) = list_to_set fields.
Proof.
  unfold typed. revert st. induction changes as [| c changes IH]; intros st Hc Hd.
  - exact Hd.
  - cbn [fold_left]. inversion Hc as [| ? ? Hin Hrest]; subst.
    apply IH; [exact Hrest |].
    unfold handleInputChange, extend. cbn [formData fold_left fst snd].
    rewrite dom_insert_L, Hd.
    apply set_eq. intros x. rewrite elem_of_union, elem_of_singleton.
    split; [| tauto]. intros [-> | Hx]; [| exact Hx].
    apply elem_of_list_to_set, list_elem_of_In. exact Hin.
Qed.

Lemma resourceRow_dom (u : Auth.User) (st : State) :
  dom (resourceRow u st) =
    {[ "is_available" ]} ∪ ({[ "owner_id" ]} ∪ ({[ "price" ]} ∪ dom (formData st))).
Proof.
  unfold resourceRow, extend. cbn [fold_left fst snd].
  now rewrite !dom_insert_L, dom_fmap_L.
Qed.

(** After any sequence of input events on the form's controls, the
    form still has its eight members, and the submitted row has these
    and [owner_id] and [is_available]: ten members, each a column of
    [resources], and it passes the insert policy for the session's
    user. *)
Theorem typed_row_columns (u : Auth.User) (changes : list (string * string)) :
  Forall (fun c => In (fst c) fields) changes ->
  let st := typed changes initial in
  dom (formData st) = list_to_set fields
  /\ dom (resourceRow u st) = list_to_set ("owner_id" :: "is_available" :: fields)
  /\ size (dom (resourceRow u st)) = 10%nat
  /\ dom (resourceRow u st) ⊆ list_to_set Policies.resources_columns
  /\ Policies.resources_insert (Auth.id u) (resourceRow u st) = true.
Proof.
  intros Hc st.
  assert (Hd : dom (formData st) = list_to_set fields).
  { apply typed_dom; [exact Hc |]. unfold initial, object, extend.
    cbn [formData fold_left fst snd]. rewrite !dom_insert_L, dom_empty_L.
    apply set_eq. intros x. unfold fields.
    rewrite !elem_of_list_to_set, !elem_of_cons, !elem_of_union, !elem_of_singleton,
      elem_of_nil, elem_of_empty. tauto. }
  assert (Hr : dom (resourceRow u st) =
               list_to_set ("owner_id" :: "is_available" :: fields)).
  { rewrite resourceRow_dom, Hd. apply set_eq. intros x. unfold fields.
    rewrite !elem_of_union, !elem_of_singleton, !elem_of_list_to_set, !elem_of_cons,
      elem_of_nil. tauto. }
  split; [exact Hd |]. split; [exact Hr |]. split; [| split].
  - rewrite Hr. reflexivity.
  - rewrite Hr. intros x. unfold fields, Policies.resources_columns.
    rewrite !elem_of_list_to_set, !elem_of_cons. tauto.
  - unfold Policies.resources_insert. rewrite resourceRow_lookup. cbn.
    apply String.eqb_refl.
Qed.

End CreationMore.

(** ** Resource listing: fetching and filtering *)

Section ListingMore.
Import Js Client Resources.

Lemma includes_empty (s : string) : includes s "" = true.
Proof. apply includes_spec. now exists "", s. Qed.

Lemma append_assoc (a b c : string) : (a +:+ b) +:+ c = a +:+ (b +:+ c).
Proof.
  induction a as [| x a IH]; [reflexivity |].
  change (String x ((a +:+ b) +:+ c) = String x (a +:+ (b +:+ c))).
  now rewrite IH.
Qed.

Lemma occurs_in_trans (a b c : string) :
  occurs_in a b -> occurs_in b c -> occurs_in a c.
Proof.
  intros [p1 [s1 ->]] [p2 [s2 ->]].
  exists (p2 +:+ p1), (s1 +:+ s2). now rewrite !append_assoc.
Qed.

Lemma filter_narrow {A : Type} (f g : A -> bool) (l : list A) :
  (forall x, In x l -> f x = true -> g x = true) ->
  incl (List.filter f l) (List.filter g l).
Proof.
  intros Hfg x Hx. apply List.filter_In in Hx as [Hx Hf].
  apply List.filter_In. split; [exact Hx | now apply Hfg].
Qed.

Lemma filter_under {A : Type} (f g : A -> bool) (l : list A) :
  (forall x, f x = true -> g x = true) ->
  List.filter f (List.filter g l) = List.filter f l.
Proof.
  intros Hfg. induction l as [| a l IH]; cbn; [reflexivity |].
  destruct (g a) eqn:Hg; cbn.
  - now rewrite IH.
  - destruct (f a) eqn:Hf; [| exact IH].
    rewrite (Hfg a Hf) in Hg. discriminate.
Qed.

Lemma filter_sublist {A : Type} (f : A -> bool) (l : list A) :
  sublist (List.filter f l) l.
Proof.
  induction l as [| a l IH]; cbn; [constructor |].
  destruct (f a); now constructor.
Qed.

(** A fetch the backend refuses keeps the resources fetched before and
    notifies; an answered fetch replaces them (by nothing when the
    answer carries no rows).  Either way loading ends and the search
    inputs are untouched. *)
Theorem fetchResources_outcome (backend : request -> response (list Resource))
    (st : State) :
  let o := run backend fetchResources st in
  let res := backend fetchQuery in
  loading (final o) = false
  /\ searchTerm (final o) = searchTerm st
  /\ selectedCategory (final o) = selectedCategory st
  /\ (error res <> None ->
      resources (final o) = resources st
      /\ events o = [ConsoleError "Error fetching resources:";
                     Toast "Error" "Failed to load resources" true])
  /\ (error res = None ->
      resources (final o) = default [] (data res) /\ events o = []).
Proof.
  intros o res. unfold o, fetchResources. cbn [run final events]. fold res.
  destruct (error res) as [e |]; cbn [run final events];
    repeat split; try reflexivity; intros; congruence.
Qed.

Context `{Runtime}.

(** With an empty search box and no category selected the listing
    shows every fetched resource, in the fetched order (for a runtime
    whose lower-casing maps the empty string to itself). *)
Theorem filteredResources_no_filter (st : State) :
  toLowerCase "" = "" ->
  searchTerm st = "" -> selectedCategory st = "" ->
  filteredResources st = resources st.
Proof.
  intros Hl Hs Hc. unfold filteredResources, matchesSearch, matchesCategory.
  rewrite Hs, Hc, Hl. apply filter_all. intros r _.
  now rewrite includes_empty.
Qed.

(** Refining the search (the old term occurs in the new one, both
    lower-cased) or selecting a category only removes resources from
    the listing. *)
Theorem filteredResources_narrows (st : State) (term category : string) :
  (occurs_in (toLowerCase (searchTerm st)) (toLowerCase term) ->
   incl (filteredResources (setSearchTerm term st)) (filteredResources st))
  /\ (selectedCategory st = "" ->
      incl (filteredResources (setSelectedCategory category st))
           (filteredResources st)).
Proof.
  split.
  - intros Ho. unfold filteredResources. cbn [resources searchTerm selectedCategory setSearchTerm].
    apply filter_narrow. intros r _. rewrite !andb_true_iff.
    intros [Hm Hc]. split; [| exact Hc]. revert Hm. unfold matchesSearch.
    rewrite !orb_true_iff.
    assert (Hi : forall s, includes s (toLowerCase term) = true ->
                           includes s (toLowerCase (searchTerm st)) = true).
    { intros s Hs. apply includes_spec. apply includes_spec in Hs.
      exact (occurs_in_trans _ _ _ Ho Hs). }
    intros [[Ht | Hd] | Hl]; [left; left | left; right | right]; try now apply Hi.
    destruct (description r); [now apply Hi | discriminate].
  - intros Hc. unfold filteredResources.
    cbn [resources searchTerm selectedCategory setSelectedCategory].
    apply filter_narrow. intros r _. rewrite !andb_true_iff.
    intros [Hm _]. split; [exact Hm |]. unfold matchesCategory. now rewrite Hc.
Qed.

(** The listing never reorders, repeats or invents resources: it is a
    sub-list of the fetched ones, and filtering what is shown with the
    same inputs changes nothing. *)
Theorem filteredResources_sublist (st : State) :
  sublist (filteredResources st) (resources st)
  /\ (length (filteredResources st) <= length (resources st))%nat
  /\ filteredResources (setResources (filteredResources st) st) = filteredResources st.
Proof.
  split; [apply filter_sublist |]. split.
  - apply sublist_length, filter_sublist.
  - unfold filteredResources. cbn [resources searchTerm selectedCategory setResources].
    now apply filter_under.
Qed.

End ListingMore.

(** ** Row policies and the selects of the pages *)

Section PoliciesFacts.
Import Js Client Resources.

Lemma passes_owner (uid : string) (r : Resource) :
  passes [("owner_id", VString uid)] r = String.eqb (owner_id r) uid.
Proof. unfold passes. cbn. apply andb_true_r. Qed.

(** The row policy on reading [resources] hides nothing from the
    listing, with or without a session, and nothing from the dashboard
    of the session's user: the selects return what they would return
    on the whole table.  The dashboard select also returns the user's
    resources that are not available, which the listing never does. *)
Theorem select_policy_transparent (uid : option string) (u : string)
    (rows : list Resource) :
  run_select fetchQuery (List.filter (Policies.resources_select uid) rows)
    = run_select fetchQuery rows
  /\ run_select (Dashboard.ownedQuery u)
       (List.filter (Policies.resources_select (Some u)) rows)
     = run_select (Dashboard.ownedQuery u) rows
  /\ (forall r, In r (run_select (Dashboard.ownedQuery u) rows) <->
                In r rows /\ owner_id r = u).
Proof.
  split; [| split].
  - rewrite !run_select_fetchQuery. f_equal. apply filter_under.
    intros r Hr. apply passes_available in Hr. unfold available in Hr.
    unfold Policies.resources_select. now rewrite Hr.
  - unfold run_select, Dashboard.ownedQuery. f_equal. apply filter_under.
    intros r Hr. rewrite passes_owner in Hr.
    unfold Policies.resources_select. rewrite Hr. apply orb_true_r.
  - intros r. unfold run_select, Dashboard.ownedQuery.
    rewrite sort_by_In, List.filter_In, passes_owner, String.eqb_eq. tauto.
Qed.

End PoliciesFacts.

(** ** Landing page *)

Section LandingFacts.
Import Js Client Landing.

Lemma firstn_In {A : Type} (n : nat) (l : list A) (x : A) :
  In x (firstn n l) -> In x l.
Proof.
  revert n. induction l as [| a l IH]; intros [| n]; cbn; try tauto.
  intros [-> | Hx]; [now left | right; now apply (IH n)].
Qed.

Lemma firstn_sorted {A : Type} (R : A -> A -> Prop) (n : nat) (l : list A) :
  StronglySorted R l -> StronglySorted R (firstn n l).
Proof.
  intros Hl. revert n. induction Hl as [| a l Hl IH Ha]; intros [| n]; cbn;
    try constructor; [apply IH |].
  apply List.Forall_forall. intros x Hx. apply firstn_In in Hx.
  rewrite List.Forall_forall in Ha. now apply Ha.
Qed.

(** The landing page never notifies: whatever the backend answers, an
    error included, it only stores the rows of the answer, or none. *)
Theorem fetchFeaturedResources_silent (backend : forall D, query D -> response D)
    (st : State) :
  let o := Typed.run backend fetchFeaturedResources st in
  Typed.events o = []
  /\ Typed.requests o = [Typed.pack featuredQuery]
  /\ featuredResources (Typed.final o) = default [] (data (backend _ featuredQuery))
  /\ (data (backend _ featuredQuery) = None -> showsFeatured (Typed.final o) = false).
Proof.
  intros o. unfold o. cbn. repeat split. now intros ->.
Qed.

Lemma sorted_app_inv {A : Type} (R : A -> A -> Prop) (l1 l2 : list A) :
  StronglySorted R (l1 ++ l2) ->
  forall a b, In a l1 -> In b l2 -> R a b.
Proof.
  induction l1 as [| x l1 IH]; cbn; intros Hs a b Ha Hb; [contradiction |].
  inversion Hs as [| ? ? Hrest Hx]; subst.
  destruct Ha as [<- | Ha].
  - rewrite List.Forall_forall in Hx. apply Hx, List.in_or_app. now right.
  - now apply IH.
Qed.

(** Against the service the landing page holds at most six resources,
    all available, newest first.  When the service answers they are as
    many as six and the listing page's resources allow, each of them is
    one the listing page holds for the same table, and no resource of
    the listing left out is more recent than one shown; the section is
    shown exactly when the service answered and some row is
    available. *)
Theorem featured_newest_available (up : bool) (rows : list Resources.Resource)
    (st : State) :
  let l := featuredResources
             (Typed.final (Typed.run (service up rows) fetchFeaturedResources st)) in
  let listing := Resources.resources
                   (final (run (Resources.service true rows)
                             Resources.fetchResources Resources.initial)) in
  (length l <= 6)%nat
  /\ Forall available l
  /\ newest_first l
  /\ (up = true ->
      length l = Nat.min 6 (length listing)
      /\ incl l listing
      /\ (forall f r, In f l -> In r listing -> ~ In r l ->
            Resources.created_at r <= Resources.created_at f))
  /\ (showsFeatured
        (Typed.final (Typed.run (service up rows) fetchFeaturedResources st)) = true
      <-> up = true /\ exists r, In r rows /\ available r).
Proof.
  intros l listing.
  assert (Hl : l = if up then firstn 6 (Resources.run_select Resources.fetchQuery rows)
                   else []).
  { unfold l. now destruct up. }
  assert (Hg : listing = Resources.run_select Resources.fetchQuery rows) by reflexivity.
  split; [| split; [| split; [| split]]].
  - rewrite Hl. destruct up; [apply List.firstn_le_length | cbn; lia].
  - rewrite Hl. destruct up; [| constructor].
    apply List.Forall_forall. intros r Hr. apply firstn_In in Hr.
    now apply fetched_In in Hr.
  - rewrite Hl. destruct up; [| constructor].
    apply firstn_sorted, fetched_newest_first.
  - intros ->. rewrite Hl, Hg. clear Hl Hg.
    set (L := Resources.run_select Resources.fetchQuery rows).
    split; [apply List.length_firstn |]. split.
    + intros x Hx. now apply firstn_In in Hx.
    + intros f r Hf Hr Hn.
      assert (Hsk : In r (skipn 6 L)).
      { rewrite <- (List.firstn_skipn 6 L) in Hr.
        apply List.in_app_or in Hr as [Hr | Hr]; [contradiction | exact Hr]. }
      pose proof (fetched_newest_first rows) as Hs. fold L in Hs.
      unfold newest_first in Hs. rewrite <- (List.firstn_skipn 6 L) in Hs.
      exact (sorted_app_inv _ _ _ Hs f r Hf Hsk).
  - unfold showsFeatured. fold l. rewrite Hl. destruct up.
    + destruct (Resources.run_select Resources.fetchQuery rows) as [| r rest] eqn:Hs.
      * cbn. split; [discriminate |]. intros [_ [r Hr]].
        apply fetched_In in Hr. rewrite Hs in Hr. contradiction.
      * cbn. split; [| reflexivity]. intros _. split; [reflexivity |].
        exists r. apply fetched_In. rewrite Hs. now left.
    + cbn. split; [discriminate | intros [[=] _]].
Qed.

End LandingFacts.

(** ** Dashboard: refused mutations, repeated mutations, loading *)

Section DashboardMore.
Import Js Client Dashboard.

(** A mutation the backend refuses changes nothing on the dashboard:
    the resource stays listed, the booking keeps its status, and the
    failure is notified. *)
Theorem mutation_refused (backend : request -> response unit) (st : State) :
  (forall r, error (backend (deleteRequest r)) <> None ->
     run backend (deleteResource r) st =
       {| final := st;
          events := [ConsoleError "Error deleting resource:";
                     Toast "Error" "Failed to delete resource" true];
          requests := [deleteRequest r] |})
  /\ (forall b s, error (backend (updateRequest b s)) <> None ->
        run backend (updateBookingStatus b s) st =
          {| final := st;
             events := [ConsoleError "Error updating booking:";
                        Toast "Error" "Failed to update booking" true];
             requests := [updateRequest b s] |}).
Proof.
  split.
  - intros r He. unfold deleteResource. cbn [run].
    destruct (error _); [reflexivity | contradiction].
  - intros b s He. unfold updateBookingStatus. cbn [run].
    destruct (error _); [reflexivity | contradiction].
Qed.

Lemma filter_comm {A : Type} (f g : A -> bool) (l : list A) :
  List.filter f (List.filter g l) = List.filter g (List.filter f l).
Proof.
  induction l as [| a l IH]; cbn; [reflexivity |].
  destruct (f a) eqn:Hf, (g a) eqn:Hg; cbn; rewrite ?Hf, ?Hg, IH; reflexivity.
Qed.

(** Accepted deletions: none of the entries of the deleted id is left,
    deleting the same id again changes nothing, and two deletions give
    the same dashboard in either order. *)
Theorem deleteResource_repeat (backend : request -> response unit)
    (r1 r2 : string) (st : State) :
  error (backend (deleteRequest r1)) = None ->
  error (backend (deleteRequest r2)) = None ->
  let after r s := final (run backend (deleteResource r) s) in
  Forall (fun x => Resource.id x <> r1) (myResources (after r1 st))
  /\ after r1 (after r1 st) = after r1 st
  /\ after r2 (after r1 st) = after r1 (after r2 st).
Proof.
  intros H1 H2 after. unfold after.
  rewrite !(deleteResource_ok backend r1) by exact H1.
  rewrite !(deleteResource_ok backend r2) by exact H2.
  cbn [final]. unfold setMyResources. cbn [myResources myBookings resourceBookings loading].
  split; [| split].
  - apply List.Forall_forall. intros x Hx. apply List.filter_In in Hx as [_ Hx].
    now apply negb_true_iff, String.eqb_neq in Hx.
  - f_equal. now apply filter_under.
  - f_equal. apply filter_comm.
Qed.

(** Accepted status updates keep the bookings and their order and touch
    the status only; an update for an id that is not in the requests
    list changes nothing (the success is notified all the same); of two
    updates of one booking the later one stands; updates of different
    bookings give the same dashboard in either order. *)
Theorem updateBookingStatus_repeat (backend : request -> response unit)
    (b1 b2 s1 s2 : string) (st : State) :
  error (backend (updateRequest b1 s1)) = None ->
  error (backend (updateRequest b1 s2)) = None ->
  error (backend (updateRequest b2 s2)) = None ->
  let after b s x := final (run backend (updateBookingStatus b s) x) in
  List.map Booking.id (resourceBookings (after b1 s1 st))
    = List.map Booking.id (resourceBookings st)
  /\ ((forall x, In x (resourceBookings st) -> Booking.id x <> b1) ->
      after b1 s1 st = st
      /\ events (run backend (updateBookingStatus b1 s1) st)
           = [Toast "Success" ("Booking " +:+ s1 +:+ " successfully") false])
  /\ after b1 s2 (after b1 s1 st) = after b1 s2 st
  /\ (b1 <> b2 -> after b2 s2 (after b1 s1 st) = after b1 s1 (after b2 s2 st)).
Proof.
  intros H1 H2 H3 after. unfold after.
  rewrite !(updateBookingStatus_ok backend b1 s1) by exact H1.
  rewrite !(updateBookingStatus_ok backend b1 s2) by exact H2.
  rewrite !(updateBookingStatus_ok backend b2 s2) by exact H3.
  cbn [final events]. unfold setResourceBookings.
  cbn [myResources myBookings resourceBookings loading].
  split; [| split; [| split]].
  - rewrite List.map_map. apply List.map_ext. intros x.
    now destruct (String.eqb _ _).
  - intros Hno. split; [| reflexivity]. destruct st as [mr mb rb ld].
    cbn [myResources myBookings resourceBookings loading] in *. f_equal.
    rewrite <- (List.map_id rb) at 2. apply List.map_ext_in. intros x Hx.
    specialize (Hno x Hx). apply String.eqb_neq in Hno. now rewrite Hno.
  - f_equal. rewrite List.map_map. apply List.map_ext. intros x.
    destruct (String.eqb (Booking.id x) b1) eqn:Hx; cbn [Booking.with_status Booking.id];
      rewrite Hx; reflexivity.
  - intros Hne. f_equal. rewrite !List.map_map. apply List.map_ext. intros x.
    destruct (String.eqb (Booking.id x) b1) eqn:E1,
             (String.eqb (Booking.id x) b2) eqn:E2;
      cbn [Booking.with_status Booking.id]; rewrite ?E1, ?E2; try reflexivity.
    apply String.eqb_eq in E1, E2. congruence.
Qed.

(** Loading the dashboard asks for the owned resources, the bookings
    made and the bookings received, in this order, and stops at the
    first refusal: what was answered before it is kept, the later lists
    are left as they were, and one notification is shown.  Loading ends
    in every case.  Without a session nothing is asked and entering
    the page goes to "/auth". *)
Theorem fetchDashboardData_outcome (backend : forall D, query D -> response D)
    (u : Auth.User) (st : State) :
  let o := Typed.run backend (fetchDashboardData (Some u)) st in
  let q1 := SelectResources (ownedQuery (Auth.id u)) in
  let q2 := SelectBookings (madeQuery (Auth.id u)) in
  let q3 := SelectBookings (receivedQuery (Auth.id u)) in
  let failure := [ConsoleError "Error fetching dashboard data:";
                  Toast "Error" "Failed to load dashboard data" true] in
  Typed.run backend (fetchDashboardData None) st =
    {| Typed.final := st; Typed.events := []; Typed.requests := [] |}
  /\ Typed.run backend (mount None) st =
       {| Typed.final := st; Typed.events := [Navigate "/auth"];
          Typed.requests := [] |}
  /\ loading (Typed.final o) = false
  /\ (error (backend _ q1) <> None ->
      Typed.requests o = [Typed.pack q1] /\ Typed.events o = failure
      /\ myResources (Typed.final o) = myResources st
      /\ myBookings (Typed.final o) = myBookings st
      /\ resourceBookings (Typed.final o) = resourceBookings st)
  /\ (error (backend _ q1) = None -> error (backend _ q2) <> None ->
      Typed.requests o = [Typed.pack q1; Typed.pack q2] /\ Typed.events o = failure
      /\ myResources (Typed.final o) = default [] (data (backend _ q1))
      /\ myBookings (Typed.final o) = myBookings st
      /\ resourceBookings (Typed.final o) = resourceBookings st)
  /\ (error (backend _ q1) = None -> error (backend _ q2) = None ->
      Typed.requests o = [Typed.pack q1; Typed.pack q2; Typed.pack q3]
      /\ myResources (Typed.final o) = default [] (data (backend _ q1))
      /\ myBookings (Typed.final o) = default [] (data (backend _ q2))
      /\ (error (backend _ q3) <> None ->
          Typed.events o = failure
          /\ resourceBookings (Typed.final o) = resourceBookings st)
      /\ (error (backend _ q3) = None ->
          Typed.events o = []
          /\ resourceBookings (Typed.final o) = default [] (data (backend _ q3)))).
Proof.
  intros o q1 q2 q3 failure.
  split; [reflexivity |]. split; [reflexivity |].
  unfold o, fetchDashboardData, fetchFailed.
  cbn [Typed.run Typed.final Typed.events Typed.requests].
  fold q1 q2 q3.
  destruct (error (backend _ q1)) as [e1 |];
    cbn [Typed.run Typed.final Typed.events Typed.requests].
  { split; [reflexivity |]. split; [intros _; repeat split |].
    split; intros; congruence. }
  destruct (error (backend _ q2)) as [e2 |];
    cbn [Typed.run Typed.final Typed.events Typed.requests].
  { split; [reflexivity |]. split; [intros; congruence |].
    split; [intros _ _; repeat split | intros; congruence]. }
  destruct (error (backend _ q3)) as [e3 |];
    cbn [Typed.run Typed.final Typed.events Typed.requests].
  - split; [reflexivity |]. split; [intros; congruence |].
    split; [intros; congruence |]. intros _ _.
    repeat split; intros; congruence.
  - split; [reflexivity |]. split; [intros; congruence |].
    split; [intros; congruence |]. intros _ _.
    repeat split; intros; congruence.
Qed.

End DashboardMore.

(** ** The further properties on the sample data *)

Section MoreInstances.
Import Js Client.



Lemma calculateTotalPrice_invalid_date_witness :
  BookResource.calculateTotalPrice (H := Reference.reference_runtime)
    Sample.form_invalid = NaN
  /\ BookResource.shownTotal (H := Reference.reference_runtime)
       Sample.form_invalid = Some NaN.
Proof.
  apply (@calculateTotalPrice_invalid_date Reference.reference_runtime
           Sample.form_invalid Sample.drill).
  - reflexivity.
  - discriminate.
  - discriminate.
  - left. vm_compute. reflexivity.
Defined.

Lemma handleBooking_settles_witness :
  final (run ok_backend
           (BookResource.handleBooking (H := Reference.reference_runtime)
              (Some Sample.renter) Sample.form_25h) Sample.form_25h)
  = BookResource.setBooking false Sample.form_25h.
Proof.
  apply (@handleBooking_settles Reference.reference_runtime ok_backend
           Sample.renter Sample.drill Sample.form_25h).
  - reflexivity.
  - discriminate.
Defined.

Lemma handleBooking_not_ready_witness :
  run ok_backend
    (BookResource.handleBooking (H := Reference.reference_runtime)
       None Sample.form_25h) Sample.form_25h
  = {| final := Sample.form_25h; events := []; requests := [] |}.
Proof.
  apply (@handleBooking_not_ready Reference.reference_runtime).
  left. reflexivity.
Defined.

Lemma bookingRow_meets_constraints_witness :
  Policies.numeric_nonneg
    (BookResource.bookingRow (H := Reference.reference_runtime)
       Sample.renter Sample.drill Sample.form_25h !! "total_price") = true.
Proof.
  pose proof (@bookingRow_meets_constraints Reference.reference_runtime
                Sample.renter Sample.drill Sample.form_25h 10%Q
                1735725600000 1735815600000) as Hm.
  cbv zeta in Hm. destruct Hm as (_ & Ht & _).
  - reflexivity.
  - reflexivity.
  - unfold Qle. cbn. lia.
  - discriminate.
  - discriminate.
  - vm_compute. reflexivity.
  - vm_compute. reflexivity.
  - vm_compute. reflexivity.
  - apply Ht. exists 20%Q. vm_compute. reflexivity.
Defined.

Lemma mount_outcome_witness :
  BookResource.resource
    (Typed.final (Typed.run Sample.single_backend
                    (BookResource.mount (Some Sample.renter) (Some "r-drill"))
                    BookResource.initial))
  = Some Sample.drill.
Proof.
  pose proof (proj2 (mount_outcome Sample.single_backend Sample.renter "r-drill"
                       BookResource.initial)) as Hm.
  cbv zeta in Hm. destruct Hm as (_ & _ & _ & Hok); [discriminate |].
  apply Hok. reflexivity.
Defined.

Lemma mount_missing_id_witness :
  BookResource.render
    (Typed.final (Typed.run Sample.single_backend
                    (BookResource.mount (Some Sample.renter) None)
                    BookResource.initial))
  = BookResource.LoadingView.
Proof.
  apply (mount_missing_id Sample.single_backend Sample.renter None
           BookResource.initial).
  - left. reflexivity.
  - reflexivity.
Defined.

Lemma handleSubmit_settles_witness :
  events (run ok_backend
            (AddResource.handleSubmit (H := Reference.reference_runtime)
               (Some Sample.renter) Sample.form) Sample.form)
  = [Toast "Success!" "Resource added successfully" false; Navigate "/dashboard"].
Proof.
  apply (@handleSubmit_settles Reference.reference_runtime ok_backend
           Sample.renter Sample.form).
  reflexivity.
Defined.

Lemma typed_row_columns_witness :
  size (dom (AddResource.resourceRow (H := Reference.reference_runtime)
               Sample.renter
               (AddResource.typed [("title", "Tent"); ("price", "12.50")]
                  AddResource.initial))) = 10%nat.
Proof.
  apply (@typed_row_columns Reference.reference_runtime Sample.renter
           [("title", "Tent"); ("price", "12.50")]).
  repeat constructor; cbn; tauto.
Defined.

Lemma fetchResources_outcome_witness :
  Resources.resources
    (final (run (Resources.service false Sample.table)
              Resources.fetchResources Sample.listing))
  = Sample.table.
Proof.
  apply (fetchResources_outcome (Resources.service false Sample.table)
           Sample.listing).
  discriminate.
Defined.

Lemma filteredResources_no_filter_witness :
  Resources.filteredResources (H := Reference.reference_runtime)
    (Resources.setSearchTerm "" Sample.listing) = Sample.table.
Proof.
  apply (@filteredResources_no_filter Reference.reference_runtime
           (Resources.setSearchTerm "" Sample.listing)); reflexivity.
Defined.

Lemma filteredResources_narrows_witness :
  In (Sample.row "r1" "Cordless Drill" (Some "18V") "Tools" "Pune" (Some true) 100)
     (Resources.filteredResources (H := Reference.reference_runtime) Sample.listing).
Proof.
  apply (proj1 (@filteredResources_narrows Reference.reference_runtime
                  Sample.listing "Pune" "")).
  - exists "", "ne". reflexivity.
  - vm_compute. left. reflexivity.
Defined.

Lemma fetchFeaturedResources_silent_witness :
  Landing.showsFeatured
    (Typed.final (Typed.run (Landing.service false Sample.table)
                    Landing.fetchFeaturedResources Landing.initial))
  = false.
Proof.
  apply (fetchFeaturedResources_silent (Landing.service false Sample.table)
           Landing.initial).
  reflexivity.
Defined.

Lemma featured_newest_available_witness :
  length (Landing.featuredResources
            (Typed.final (Typed.run (Landing.service true Sample.table)
                            Landing.fetchFeaturedResources Landing.initial)))
  = Nat.min 6
      (length (Resources.resources
                 (final (run (Resources.service true Sample.table)
                           Resources.fetchResources Resources.initial)))).
Proof.
  apply (featured_newest_available true Sample.table Landing.initial).
  reflexivity.
Defined.

Lemma mutation_refused_witness :
  run Sample.refusing (Dashboard.deleteResource "r1") Sample.dashboard
  = {| final := Sample.dashboard;
       events := [ConsoleError "Error deleting resource:";
                  Toast "Error" "Failed to delete resource" true];
       requests := [Dashboard.deleteRequest "r1"] |}.
Proof.
  apply (proj1 (mutation_refused Sample.refusing Sample.dashboard) "r1").
  discriminate.
Defined.

Lemma deleteResource_repeat_witness :
  final (run ok_backend (Dashboard.deleteResource "r3")
           (final (run ok_backend (Dashboard.deleteResource "r1") Sample.dashboard)))
  = final (run ok_backend (Dashboard.deleteResource "r1")
             (final (run ok_backend (Dashboard.deleteResource "r3") Sample.dashboard))).
Proof.
  apply (deleteResource_repeat ok_backend "r1" "r3" Sample.dashboard);
    reflexivity.
Defined.

Lemma updateBookingStatus_repeat_witness :
  final (run ok_backend (Dashboard.updateBookingStatus "b1" "rejected")
           (final (run ok_backend (Dashboard.updateBookingStatus "b1" "confirmed")
                     Sample.dashboard)))
  = final (run ok_backend (Dashboard.updateBookingStatus "b1" "rejected")
             Sample.dashboard).
Proof.
  apply (updateBookingStatus_repeat ok_backend "b1" "b2" "confirmed" "rejected"
           Sample.dashboard); reflexivity.
Defined.

Lemma fetchDashboardData_outcome_witness :
  Dashboard.myResources
    (Typed.final (Typed.run Sample.dashboard_backend
                    (Dashboard.fetchDashboardData (Some Sample.renter))
                    Dashboard.initial))
  = [Sample.owned "r1"].
Proof.
  pose proof (fetchDashboardData_outcome Sample.dashboard_backend Sample.renter
                Dashboard.initial) as Hf.
  cbv zeta in Hf. destruct Hf as (_ & _ & _ & _ & _ & Hok).
  destruct (Hok eq_refl eq_refl) as (_ & Hr & _). exact Hr.
Defined.

End MoreInstances.
